(** * SlideSnap: the slide-detection engine of [slidesnap_final.py]

    A shallow embedding of [detect_scene_change], [is_blurry],
    [frames_similar] and [extract_slides], with the properties of the
    specification stated over it.

    Conventions.
    - Python [int] values are [Z]; Python [float] values (similarity scores,
      thresholds, the frame rate, the progress percentage) are idealised as
      exact rationals [Q] in the engine; [int(x)] on a float is truncation
      toward zero. The code rounds after each operation: the two constants
      it derives from the frame rate are therefore also given on IEEE
      doubles, in [Doubles], and a progress percentage is in the code the
      double nearest to the quotient carried here.
    - The image primitives of OpenCV, NumPy and scikit-image are not part of
      the repository: they are the operations of the class [Vision]. They
      are total, as is the creation of the output directory: a run in which
      a library call fails ([cv2.resize] on an empty region, [os.makedirs]
      on a path that cannot be created) is not a run of the model.
    - What [extract_slides] does to the outside world (directory creation,
      image writes, progress callbacks) is recorded as a list of [Event]s, in
      the order the calls are made; an exception stops the run and keeps the
      events performed so far. *)

From Stdlib Require Import ZArith QArith Qround Bool List String Lia Lqa.
From Stdlib Require PrimFloat FloatOps SpecFloat Uint63.
Import ListNotations.

Open Scope Z_scope.

(** ** Numbers *)

(** [a < b] on floats, as a boolean. *)
Definition Qltb (a b : Q) : bool := negb (Qle_bool b a).

(** Python's [int(x)] for a float [x]: the integer part, rounding toward
    zero. *)
Definition py_int (x : Q) : Z := Z.quot (Qnum x) (Zpos (Qden x)).

(** ** Config (module constants, lines 28-33) *)

Definition SSIM_THRESHOLD : Q := 85 # 100.
Definition BLUR_THRESHOLD : Q := 50 # 1.
Definition MIN_STABLE_SECONDS : Q := 8 # 10.
Definition FRAME_SKIP : Z := 2.
Definition HIST_THRESHOLD : Q := 25 # 100.
Definition COOLDOWN_SECONDS : Q := 3 # 10.

(** ** The image primitives

    [Frame] is a decoded colour frame, [Gray] a grayscale image.
    - [cvtColor f] is [cv2.cvtColor(f, cv2.COLOR_BGR2GRAY)];
    - [get_slide_region g] is the NumPy slice of lines 98-103;
    - [resize g] is [cv2.resize(g, (320, 240))];
    - [ssim a b] is the score returned by skimage's [structural_similarity];
    - [bhattacharyya a b] is lines 108-112 ([calcHist], [normalize],
      [compareHist] with [HISTCMP_BHATTACHARYYA]);
    - [laplacian_var g] is [cv2.Laplacian(g, cv2.CV_64F).var()]. *)
Class Vision (Frame Gray : Type) : Type := {
  cvtColor : Frame -> Gray;
  get_slide_region : Gray -> Gray;
  resize : Gray -> Gray;
  ssim : Gray -> Gray -> Q;
  bhattacharyya : Gray -> Gray -> Q;
  laplacian_var : Gray -> Q
}.

Section Detection.

Context {Frame Gray : Type} {V : Vision Frame Gray}.

(** [histogram_diff], lines 106-112. *)
Definition histogram_diff (a b : Gray) : Q := bhattacharyya a b.

(** [detect_scene_change], lines 115-135. *)
Definition detect_scene_change (ref_frame : option Gray) (curr_frame : Gray)
    (ssim_threshold hist_threshold : Q) : bool :=
  match ref_frame with
  | None => true
  | Some ref_frame =>
      let ref := get_slide_region ref_frame in
      let curr := get_slide_region curr_frame in
      let ref_small := resize ref in
      let curr_small := resize curr in
      let ssim_score := ssim ref_small curr_small in
      let hist_score := histogram_diff ref_small curr_small in
      Qltb ssim_score ssim_threshold || Qltb hist_threshold hist_score
  end.

(** [is_blurry], lines 138-140. *)
Definition is_blurry (frame_gray : Gray) : bool :=
  Qltb (laplacian_var frame_gray) BLUR_THRESHOLD.

(** [frames_similar], lines 143-151. *)
Definition frames_similar (a b : Gray) (ssim_threshold : Q) : bool :=
  let a_crop := get_slide_region a in
  let b_crop := get_slide_region b in
  let a_small := resize a_crop in
  let b_small := resize b_crop in
  let score := ssim a_small b_small in
  Qle_bool ssim_threshold score.

End Detection.

(** ** Derived thresholds of [extract_slides] (lines 157-172) *)

(** Line 157. *)
Definition threshold_of (ssim_threshold : option Q) : Q :=
  match ssim_threshold with
  | Some t => t
  | None => SSIM_THRESHOLD
  end.

(** Line 161. *)
Definition hist_thresh_of (threshold : Q) : Q :=
  ((15 # 100) + (1 - threshold) * (2 # 10))%Q.

(** Lines 167-169: the frame rate, with its fallback. *)
Definition fps_of (reported : Q) : Q :=
  if Qle_bool reported 0 then 25 # 1 else reported.

(** Line 171, in exact arithmetic; [Doubles.min_stable_frames] is the same
    line on doubles. *)
Definition min_stable_frames_of (fps : Q) : Z :=
  py_int (MIN_STABLE_SECONDS * fps / inject_Z FRAME_SKIP)%Q.

(** Line 172, in exact arithmetic; [Doubles.cooldown_frames] is the same
    line on doubles. *)
Definition cooldown_frames_of (fps : Q) : Z :=
  py_int (COOLDOWN_SECONDS * fps / inject_Z FRAME_SKIP)%Q.

(** ** Effects: events, exceptions and the monad of [extract_slides] *)

(** The text handed to the progress callback; the number is [slide_count]. *)
Inductive Message : Type :=
  | Analyzing (found : Z)     (* "Analyzing... {n} slides found" *)
  | Stabilizing (found : Z)   (* "Stabilizing... {n} slides found" *)
  | Done (found : Z).         (* "Done! {n} slides extracted" *)

(** The calls [extract_slides] makes on the outside world. [ImWrite dir n img]
    is [cv2.imwrite(os.path.join(dir, f"slide_{n:03d}.png"), img)]. *)
Inductive Event (Frame : Type) : Type :=
  | MakeDirs (dir : string)
  | ImWrite (dir : string) (n : Z) (img : Frame)
  | Progress (percent : Q) (msg : Message)
  | Release.

Arguments MakeDirs {Frame} dir.
Arguments ImWrite {Frame} dir n img.
Arguments Progress {Frame} percent msg.
Arguments Release {Frame}.

(** The exceptions the body of [extract_slides] can raise: a division by
    zero, [cv2.imwrite] handed [None], and [.copy()] called on [None]. *)
Inductive Exn : Type :=
  | ZeroDivisionError
  | Cv2Error
  | AttributeError.

Inductive Outcome (A : Type) : Type :=
  | Return (a : A)
  | Raise (e : Exn).

Arguments Return {A} a.
Arguments Raise {A} e.

(** A computation: the events it performed, in order, and how it ended. *)
Definition M (E A : Type) : Type := (list E * Outcome A)%type.

Definition ret {E A : Type} (a : A) : M E A := ([], Return a).

Definition bind {E A B : Type} (m : M E A) (k : A -> M E B) : M E B :=
  match m with
  | (tr, Return a) => let (tr', o) := k a in (tr ++ tr', o)
  | (tr, Raise e) => (tr, Raise e)
  end.

Definition emit {E : Type} (e : E) : M E unit := ([e], Return tt).

Definition raise {E A : Type} (e : Exn) : M E A := ([], Raise e).

Declare Scope monad_scope.
Delimit Scope monad_scope with monad.
Notation "x <- m ;; k" := (bind m (fun x => k))
  (at level 61, m at next level, right associativity) : monad_scope.
Notation "m ;; k" := (bind m (fun _ => k))
  (at level 61, right associativity) : monad_scope.

(** Python's true division [a / b] of two ints. *)
Definition true_div {E : Type} (a b : Z) : M E Q :=
  if b =? 0 then raise ZeroDivisionError
  else ret (inject_Z a / inject_Z b)%Q.

(** What [extract_slides] returns: [{"error": e, "slides": n}] or
    [{"slides": n, "output_dir": d}]. *)
Inductive Result : Type :=
  | Failure (error : string) (slides : Z)
  | Success (slides : Z) (output_dir : string).

(** The slide count a result carries. *)
Definition slides_of (r : Result) : Z :=
  match r with
  | Failure _ n => n
  | Success n _ => n
  end.

(** A [cv2.VideoCapture]: whether it opened, the two properties read from
    it, and the frames successive [cap.read()] calls deliver before [ret]
    turns false. *)
Record VideoCapture (Frame : Type) : Type := mkCapture {
  isOpened : bool;
  CAP_PROP_FPS : Q;
  CAP_PROP_FRAME_COUNT : Q;
  frames : list Frame
}.

Arguments mkCapture {Frame} _ _ _ _.
Arguments isOpened {Frame} _.
Arguments CAP_PROP_FPS {Frame} _.
Arguments CAP_PROP_FRAME_COUNT {Frame} _.
Arguments frames {Frame} _.

(** ** [extract_slides] (lines 154-261) *)

Section Extract.

Context {Frame Gray : Type} {V : Vision Frame Gray}.

Local Open Scope monad_scope.

(** The local variables of lines 178-184. *)
Record Locals : Type := mkLocals {
  reference_slide : option Gray;
  candidate_frame : option Gray;
  candidate_frame_color : option Frame;
  stable_count : Z;
  slide_count : Z;
  frame_idx : Z;
  cooldown : Z
}.

(** Lines 178-184. *)
Definition init : Locals :=
  {| reference_slide := None;
     candidate_frame := None;
     candidate_frame_color := None;
     stable_count := 0;
     slide_count := 0;
     frame_idx := 0;
     cooldown := 0 |}.

(** What is fixed before the loop starts: the arguments and the values
    computed in lines 157-172. *)
Record Env : Type := mkEnv {
  output_dir : string;
  progress_callback : bool;    (* [false] is [progress_callback=None] *)
  threshold : Q;
  hist_thresh : Q;
  total_frames : Z;
  min_stable_frames : Z;
  cooldown_frames : Z
}.

Definition set_reference_slide (v : option Gray) (l : Locals) : Locals :=
  mkLocals v (candidate_frame l) (candidate_frame_color l) (stable_count l)
           (slide_count l) (frame_idx l) (cooldown l).

Definition set_candidate (g : option Gray) (c : option Frame) (l : Locals)
    : Locals :=
  mkLocals (reference_slide l) g c (stable_count l) (slide_count l)
           (frame_idx l) (cooldown l).

Definition set_candidate_frame (g : option Gray) (l : Locals) : Locals :=
  set_candidate g (candidate_frame_color l) l.

Definition set_stable_count (n : Z) (l : Locals) : Locals :=
  mkLocals (reference_slide l) (candidate_frame l) (candidate_frame_color l)
           n (slide_count l) (frame_idx l) (cooldown l).

Definition set_slide_count (n : Z) (l : Locals) : Locals :=
  mkLocals (reference_slide l) (candidate_frame l) (candidate_frame_color l)
           (stable_count l) n (frame_idx l) (cooldown l).

Definition set_frame_idx (n : Z) (l : Locals) : Locals :=
  mkLocals (reference_slide l) (candidate_frame l) (candidate_frame_color l)
           (stable_count l) (slide_count l) n (cooldown l).

Definition set_cooldown (n : Z) (l : Locals) : Locals :=
  mkLocals (reference_slide l) (candidate_frame l) (candidate_frame_color l)
           (stable_count l) (slide_count l) (frame_idx l) n.

Variable env : Env.

(** Lines 200-202, 214-216 and 219-221: the guarded progress report. The
    percentage is the exact quotient. *)
Definition report (l : Locals) (msg : Z -> Message) : M (Event Frame) unit :=
  if progress_callback env then
    q <- true_div (frame_idx l) (total_frames env) ;;
    let progress := (q * 100)%Q in
    emit (Progress progress (msg (slide_count l)))
  else ret tt.

(** Lines 245-251: the commit of a stable candidate. *)
Definition commit_if_stable (l : Locals) : M (Event Frame) Locals :=
  if min_stable_frames env <=? stable_count l then
    let l := set_slide_count (slide_count l + 1) l in
    match candidate_frame_color l with
    | None => raise Cv2Error
    | Some color =>
        emit (ImWrite (output_dir env) (slide_count l) color) ;;
        match candidate_frame l with
        | None => raise AttributeError
        | Some cand =>
            let l := set_reference_slide (Some cand) l in
            let l := set_candidate_frame None l in
            let l := set_stable_count 0 l in
            ret (set_cooldown (cooldown_frames env) l)
        end
    end
  else ret l.

(** Lines 196-254: the body of the loop for a frame that is sampled. *)
Definition sampled_body (l : Locals) (frame : Frame)
    : M (Event Frame) Locals :=
  let gray := cvtColor frame in
  match reference_slide l with
  | None =>
      report l Analyzing ;;
      if is_blurry gray then ret l
      else
        let l := set_slide_count (slide_count l + 1) l in
        emit (ImWrite (output_dir env) (slide_count l) frame) ;;
        ret (set_reference_slide (Some gray) l)
  | Some _ =>
      if 0 <? cooldown l then
        let l := set_cooldown (cooldown l - 1) l in
        report l Stabilizing ;;
        ret l
      else
        report l Analyzing ;;
        if is_blurry gray then
          ret (set_candidate_frame None (set_stable_count 0 l))
        else if detect_scene_change (reference_slide l) gray
                  (threshold env) (hist_thresh env) then
          let l :=
            match candidate_frame l with
            | None =>
                set_stable_count 1 (set_candidate (Some gray) (Some frame) l)
            | Some cand =>
                if frames_similar cand gray (threshold env) then
                  set_stable_count (stable_count l + 1) l
                else
                  set_stable_count 1
                    (set_candidate (Some gray) (Some frame) l)
            end in
          commit_if_stable l
        else
          ret (set_candidate_frame None (set_stable_count 0 l))
  end.

(** Lines 191-254: one iteration, for the frame [cap.read()] delivered. *)
Definition loop_body (l : Locals) (frame : Frame) : M (Event Frame) Locals :=
  let l := set_frame_idx (frame_idx l + 1) l in
  if negb (frame_idx l mod FRAME_SKIP =? 0) then ret l
  else sampled_body l frame.

(** Lines 186-254: the loop runs until [cap.read()] has no frame left. *)
Fixpoint while_loop (fs : list Frame) (l : Locals) : M (Event Frame) Locals :=
  match fs with
  | [] => ret l
  | frame :: rest => l' <- loop_body l frame ;; while_loop rest l'
  end.

End Extract.

Arguments Locals : clear implicits.
Arguments Locals {Frame Gray}.
Arguments init {Frame Gray}.

Section ExtractSlides.

Context {Frame Gray : Type} {V : Vision Frame Gray}.

Local Open Scope monad_scope.

(** Lines 157-172: the values fixed before the loop. *)
Definition env_of (cap : VideoCapture Frame) (dir : string)
    (callback : bool) (ssim_threshold : option Q) : Env :=
  let threshold := threshold_of ssim_threshold in
  let fps := fps_of (CAP_PROP_FPS cap) in
  {| output_dir := dir;
     progress_callback := callback;
     threshold := threshold;
     hist_thresh := hist_thresh_of threshold;
     total_frames := py_int (CAP_PROP_FRAME_COUNT cap);
     min_stable_frames := min_stable_frames_of fps;
     cooldown_frames := cooldown_frames_of fps |}.

(** [extract_slides], lines 154-261. *)
Definition extract_slides (cap : VideoCapture Frame) (dir : string)
    (callback : bool) (ssim_threshold : option Q)
    : M (Event Frame) Result :=
  if negb (isOpened cap) then
    ret (Failure "Cannot open video" 0)
  else
    let env := env_of cap dir callback ssim_threshold in
    emit (MakeDirs dir) ;;
    l <- while_loop env (frames cap) init ;;
    emit Release ;;
    (if callback then emit (Progress 100 (Done (slide_count l)))
     else ret tt) ;;
    ret (Success (slide_count l) dir).

End ExtractSlides.

(** ** The engine as a state machine over the sampled frames

    The progress callback only observes; without it [sampled_body] is the
    transition function of the state machine. [step] is the state it leaves
    and [step_writes] the images it writes. *)

Section Machine.

Context {Frame Gray : Type} {V : Vision Frame Gray}.

(** The same environment, with [progress_callback=None]. *)
Definition silent (env : Env) : Env :=
  mkEnv (output_dir env) false (threshold env) (hist_thresh env)
        (total_frames env) (min_stable_frames env) (cooldown_frames env).

(** The [(n, img)] of the [cv2.imwrite] calls among the events. *)
Fixpoint writes_of (evs : list (Event Frame)) : list (Z * Frame) :=
  match evs with
  | [] => []
  | ImWrite _ n img :: rest => (n, img) :: writes_of rest
  | _ :: rest => writes_of rest
  end.

(** The state a sampled frame leaves. Without a callback [sampled_body]
    raises only where line 247 or 248 would meet [None], which no state
    satisfying [Inv] below does ([sampled_body_machine]); the state is then
    left as it was. *)
Definition step (env : Env) (l : Locals) (frame : Frame) : Locals :=
  match snd (sampled_body (silent env) l frame) with
  | Return l' => l'
  | Raise _ => l
  end.

(** The images a sampled frame makes the engine write. *)
Definition step_writes (env : Env) (l : Locals) (frame : Frame)
    : list (Z * Frame) :=
  writes_of (fst (sampled_body (silent env) l frame)).

(** The state after a sequence of sampled frames. *)
Fixpoint run (env : Env) (l : Locals) (fs : list Frame) : Locals :=
  match fs with
  | [] => l
  | f :: rest => run env (step env l f) rest
  end.

(** The images written at each sampled frame, frame by frame. *)
Fixpoint trace (env : Env) (l : Locals) (fs : list Frame)
    : list (list (Z * Frame)) :=
  match fs with
  | [] => []
  | f :: rest => step_writes env l f :: trace env (step env l f) rest
  end.

(** The frames of a source that are sampled, given the value [idx] of
    [frame_idx] before the first of them is read: those whose index is a
    multiple of [FRAME_SKIP]. *)
Fixpoint sampled_from (idx : Z) (fs : list Frame) : list Frame :=
  match fs with
  | [] => []
  | f :: rest =>
      if (idx + 1) mod FRAME_SKIP =? 0
      then f :: sampled_from (idx + 1) rest
      else sampled_from (idx + 1) rest
  end.

Definition sampled (fs : list Frame) : list Frame := sampled_from 0 fs.

End Machine.

(** ** A synthetic camera, to run the engine on

    A synthetic frame shows a scene (a point on a line), has a Laplacian
    variance and a tint that grayscale conversion forgets. Two grayscale
    images are the more similar the closer their scenes are. *)

Module Synthetic.

Record frame : Type := mkFrame { scene : Z; sharpness : Z; tint : Z }.

Definition gray : Type := (Z * Z)%type.

Definition closeness (a b : gray) : Q :=
  let d := Z.abs (fst a - fst b) in
  if 10 <=? d then 0 else (1 - (d # 10))%Q.

#[global] Instance vision : Vision frame gray := {|
  cvtColor := fun f => (scene f, sharpness f);
  get_slide_region := fun g => g;
  resize := fun g => g;
  ssim := closeness;
  bhattacharyya := fun _ _ => 0%Q;
  laplacian_var := fun g => inject_Z (snd g)
|}.

(** A sharp frame of scene [s], and a blurry one. *)
Definition sharp (s : Z) : frame := mkFrame s 100 7.
Definition blurry (s : Z) : frame := mkFrame s 10 7.

(** A source that opens and reports 25 fps and its true frame count. *)
Definition camera (fs : list frame) : VideoCapture frame :=
  mkCapture true (25 # 1) (inject_Z (Z.of_nat (List.length fs))) fs.

(** Scene [a] held for two frames, then scene [b] for [n] frames. *)
Definition cut (a b : Z) (n : nat) : list frame :=
  [sharp a; sharp a] ++ repeat (sharp b) n.

(** Scene [a] for two frames, then [b] and [c] alternating, [n] times. *)
Fixpoint flicker (b c : Z) (n : nat) : list frame :=
  match n with
  | O => []
  | S n' => sharp b :: sharp b :: sharp c :: sharp c :: flicker b c n'
  end.

(** Sampled frames: scene 0, scene 2 held for 10 frames, scene 9 for 13. *)
Definition three_scenes : list frame :=
  sharp 0 :: repeat (sharp 2) 10 ++ repeat (sharp 9) 13.

End Synthetic.

(** The environment [extract_slides] derives for a 25 fps source: 10 stable
    frames, 3 frames of cooldown. *)
Definition env25 : Env := env_of (Synthetic.camera []) "out" false None.

(** ** The derivation of the constants, as the specification words it

    The specification derives both constants with [round]; Python's [round]
    on a float goes to the nearest integer, a tie to the even one. *)

Definition py_round (x : Q) : Z :=
  let f := Qfloor x in
  match ((x - inject_Z f) ?= (1 # 2))%Q with
  | Lt => f
  | Gt => f + 1
  | Eq => if Z.even f then f else f + 1
  end.

Definition spec_min_stable_frames (fps : Q) (frame_skip : Z) : Z :=
  py_round (MIN_STABLE_SECONDS * fps / inject_Z frame_skip)%Q.

Definition spec_cooldown_frames (fps : Q) (frame_skip : Z) : Z :=
  py_round (COOLDOWN_SECONDS * fps / inject_Z frame_skip)%Q.

(** ** The derivation of the constants in double arithmetic (lines 167-172)

    [cap.get] returns a double, and lines 171-172 multiply and divide in
    double arithmetic before [int] truncates. Here these lines are on the
    IEEE doubles themselves: the operations are those of the processor and
    [int] is read off the sign, mantissa and exponent of the quotient. *)

Module Doubles.

Import PrimFloat FloatOps SpecFloat.

(** The doubles Python reads for [0.8] and [0.3]. *)
Definition MIN_STABLE_SECONDS : float := 0x1.999999999999ap-1%float.
Definition COOLDOWN_SECONDS : float := 0x1.3333333333333p-2%float.

(** Lines 167-169: [fps <= 0] is false of NaN. *)
Definition fps_of (reported : float) : float :=
  if (reported <=? 0)%float then 25%float else reported.

(** What [int(x)] does with a double. *)
Inductive int_result : Type :=
  | IntOf (z : Z)
  | ValueError        (* "cannot convert float NaN to integer" *)
  | OverflowError.    (* "cannot convert float infinity to integer" *)

(** [int(x)]: the integer part of a finite double, toward zero. *)
Definition py_int (x : float) : int_result :=
  match Prim2SF x with
  | S754_zero _ => IntOf 0
  | S754_infinity _ => OverflowError
  | S754_nan => ValueError
  | S754_finite s m e =>
      let a := Z.shiftl (Zpos m) e in
      IntOf (if s then - a else a)
  end.

(** Line 171; [FRAME_SKIP] is converted to the double 2. *)
Definition min_stable_quotient (reported : float) : float :=
  (MIN_STABLE_SECONDS * fps_of reported / 2)%float.

Definition min_stable_frames (reported : float) : int_result :=
  py_int (min_stable_quotient reported).

(** Line 172. *)
Definition cooldown_quotient (reported : float) : float :=
  (COOLDOWN_SECONDS * fps_of reported / 2)%float.

Definition cooldown_frames (reported : float) : int_result :=
  py_int (cooldown_quotient reported).

(** The number a double stands for, when it is finite, in lowest terms. *)
Definition value (x : float) : option Q :=
  match Prim2SF x with
  | S754_zero _ => Some 0%Q
  | S754_infinity _ => None
  | S754_nan => None
  | S754_finite s m e =>
      let n := if s then Zneg m else Zpos m in
      match e with
      | Z0 => Some (inject_Z n)
      | Zpos p => Some (inject_Z (n * 2 ^ Zpos p))
      | Zneg p => Some (Qred (n # (2 ^ p)))
      end
  end.

(** [z] is [v] without its fractional part. *)
Definition truncates (z : Z) (v : Q) : Prop :=
  ((0 <= v)%Q -> (inject_Z z <= v < inject_Z z + 1)%Q) /\
  ((v <= 0)%Q -> (inject_Z z - 1 < v <= inject_Z z)%Q).

(** The whole number [n] as a double. *)
Definition of_Z (n : Z) : float := of_uint63 (Uint63.of_Z n).

(** On the whole-number rate [n] the doubles give the constants that the
    rational arithmetic of [min_stable_frames_of] and [cooldown_frames_of]
    gives. *)
Definition agree (n : Z) : bool :=
  match min_stable_frames (of_Z n), cooldown_frames (of_Z n) with
  | IntOf a, IntOf b =>
      (a =? min_stable_frames_of (inject_Z n))
      && (b =? cooldown_frames_of (inject_Z n))
  | _, _ => false
  end.

End Doubles.

(** ** Invariants of the state machine *)

Section Invariants.

Context {Frame Gray : Type} {V : Vision Frame Gray}.

(** What holds of the local variables between two sampled frames. [P] is a
    property of the frames sampled so far. *)
Record Inv (P : Frame -> Prop) (l : Locals) : Prop := {
  inv_cooldown : 0 <= cooldown l;
  inv_exclusive : 0 < cooldown l -> candidate_frame l = None;
  inv_idle : candidate_frame l = None -> stable_count l = 0;
  inv_busy : candidate_frame l <> None -> 1 <= stable_count l;
  inv_first : reference_slide l = None ->
              candidate_frame l = None /\ cooldown l = 0 /\
              slide_count l = 0;
  inv_count : reference_slide l <> None -> 1 <= slide_count l;
  inv_paired : forall g, candidate_frame l = Some g ->
               exists f, candidate_frame_color l = Some f /\
                         g = cvtColor f /\ P f
}.

(** [Spaced env d l]: [d] sampled frames have gone by since a commit that
    started a cooldown, and what is left of the cooldown and of the
    stability window is still ahead. *)
Definition Spaced (env : Env) (d : Z) (l : @Locals Frame Gray) : Prop :=
  reference_slide l <> None /\
  cooldown_frames env + stable_count l <= d + cooldown l.

(** A cooldown that is running leaves no candidate. *)
Definition Exclusive (l : @Locals Frame Gray) : Prop :=
  0 <= cooldown l /\ (0 < cooldown l -> candidate_frame l = None).

(** The progress percentage can be computed: there is no callback, or the
    reported frame count is not zero. *)
Definition reportable (env : Env) : Prop :=
  progress_callback env = false \/ total_frames env <> 0.

End Invariants.

(** ** Further notions for the engine *)

(** The integers [a], [a + 1], ..., [n] of them. *)
Fixpoint numbers (a : Z) (n : nat) : list Z :=
  match n with
  | O => []
  | S n' => a :: numbers (a + 1) n'
  end.

Section Observations.

Context {Frame Gray : Type} {V : Vision Frame Gray}.

(** The percentages of the progress reports among the events. *)
Fixpoint percents_of (evs : list (Event Frame)) : list Q :=
  match evs with
  | [] => []
  | Progress p _ :: rest => p :: percents_of rest
  | _ :: rest => percents_of rest
  end.

(** The directories of the [cv2.imwrite] calls among the events. *)
Fixpoint write_dirs (evs : list (Event Frame)) : list string :=
  match evs with
  | [] => []
  | ImWrite d _ _ :: rest => d :: write_dirs rest
  | _ :: rest => write_dirs rest
  end.

(** A frame that can start or extend a candidate: sharp, and a change
    against the reference [ref]. *)
Definition moving (env : Env) (ref : option Gray) (x : Frame) : Prop :=
  is_blurry (cvtColor x) = false /\
  detect_scene_change ref (cvtColor x) (threshold env) (hist_thresh env)
    = true.

(** [Window env seen l]: [seen] is the sampled frames so far, oldest
    first. A candidate has not yet been stable for [min_stable_frames]; its
    colour form [c] is one of the last frames seen, [stable_count] counts
    [c] and the frames since, and all of these are sharp, changes against
    the reference, and (after [c]) similar to [c]. *)
Definition Window (env : Env) (seen : list Frame) (l : @Locals Frame Gray)
    : Prop :=
  forall g, candidate_frame l = Some g ->
    stable_count l < min_stable_frames env /\
    exists c older recent,
      candidate_frame_color l = Some c /\ g = cvtColor c /\
      seen = older ++ c :: recent /\
      stable_count l = Z.of_nat (List.length recent) + 1 /\
      moving env (reference_slide l) c /\
      Forall (fun x => moving env (reference_slide l) x /\
                       frames_similar g (cvtColor x) (threshold env) = true)
             recent.

End Observations.

(** ** [get_slide_region] on arrays (lines 96-103)

    For the engine [get_slide_region] is an operation of [Vision], on images
    left abstract. Here it is on the frame as NumPy holds it, a 2-D array
    given by its rows; the products [h * 0.05] etc. are exact for integer
    [h], so that [int] of them is [int] of the rational product. *)

Module Region.

Definition image : Type := list (list Z).

(** An array of [h] rows and [w] columns. *)
Definition rect (h w : nat) (a : image) : Prop :=
  List.length a = h /\ Forall (fun row => List.length row = w) a.

(** [frame_gray.shape]. *)
Definition shape (a : image) : Z * Z :=
  (Z.of_nat (List.length a), Z.of_nat (List.length (hd [] a))).

(** [xs[lo:hi]], for bounds that are not negative. *)
Definition slice {A : Type} (lo hi : Z) (xs : list A) : list A :=
  firstn (Z.to_nat (hi - lo)) (skipn (Z.to_nat lo) xs).

Definition get_slide_region (frame_gray : image) : image :=
  let (h, w) := shape frame_gray in
  let top := py_int (inject_Z h * (5 # 100)) in
  let bottom := py_int (inject_Z h * (85 # 100)) in
  let left := py_int (inject_Z w * (5 # 100)) in
  let right := py_int (inject_Z w * (95 # 100)) in
  map (slice left right) (slice top bottom frame_gray).

(** The pixel in row [i], column [j]; 0 outside the array. *)
Definition pixel (a : image) (i j : nat) : Z := nth j (nth i a []) 0.

End Region.

(** ** The installer's progress bar ([installer_bundle.py])

    [do_install] reports its progress through [update_status]; between the
    reports it works on files, shortcuts and the registry, which are not
    modelled. *)

Module Installer.

(** [self.progress_width], line 99. *)
Definition progress_width : Z := 320.

(** Line 106 of [update_status]: the width given to the bar,
    [int(self.progress_width * progress / 100)]. *)
Definition new_width (progress : Z) : Z :=
  py_int (inject_Z (progress_width * progress) / inject_Z 100)%Q.

(** Line 138: the progress after item [i] of [len_items] is copied,
    [20 + int(40 * (i + 1) / len(items))]. *)
Definition copy_progress (i len_items : Z) : Outcome Z :=
  if len_items =? 0 then Raise ZeroDivisionError
  else Return (20 + py_int (inject_Z (40 * (i + 1)) / inject_Z len_items)%Q).

(** The loop of lines 125-139, as far as the progress goes: the values
    reported while [len_items] items are copied, items [i], [i + 1], ...
    being left; a copy that fails is passed over (lines 135-136) and
    reported like one that succeeds. *)
Fixpoint copy_reports (len_items i : Z) (left : nat) : Outcome (list Z) :=
  match left with
  | O => Return []
  | S left' =>
      match copy_progress i len_items with
      | Raise e => Raise e
      | Return p =>
          match copy_reports len_items (i + 1) left' with
          | Raise e => Raise e
          | Return ps => Return (p :: ps)
          end
      end
  end.

(** The progress values [do_install] hands to [update_status], in order,
    when the bundled application is found with [n] items in it and no
    step outside the copy loop raises (lines 117-191). *)
Definition install_reports (n : nat) : Outcome (list Z) :=
  match copy_reports (Z.of_nat n) 0 n with
  | Raise e => Raise e
  | Return ps => Return ([10; 20] ++ ps ++ [65; 75; 85; 95; 100])
  end.

(** Each value is at most the next one. *)
Fixpoint nondecreasing (xs : list Z) : Prop :=
  match xs with
  | [] => True
  | a :: rest =>
      match rest with
      | [] => True
      | b :: _ => a <= b /\ nondecreasing rest
      end
  end.

End Installer.

(** ** The window around the engine ([SlideSnapApp], lines 679-849)

    Of the application window, what decides whether an extraction can be
    started and what is shown when it ends. A widget is the values its
    [config] calls set; a character of a string is a code point. *)

Module App.

(** [s[:n]]. *)
Definition take (n : nat) (s : string) : string := substring 0 n s.

(** [s[-n:]], for [n] at most the length of [s]. *)
Definition last_chars (n : nat) (s : string) : string :=
  substring (String.length s - n) n s.

(** Line 687: the text of the video button, from the file's base name. *)
Definition video_label (name : string) : string :=
  if (35 <? String.length name)%nat then (take 35 name ++ "...")%string
  else name.

(** Line 718: the text of the output button. *)
Definition output_label (folder : string) : string :=
  if (30 <? String.length folder)%nat
  then ("..." ++ last_chars 30 folder)%string
  else folder.

(** What the handlers read and set. *)
Record app : Type := mkApp {
  video_path : option string;
  output_path : option string;
  video_btn_text : string;
  output_btn_text : string;
  video_clear_shown : bool;
  output_clear_shown : bool;
  extract_enabled : bool;       (* [extract_btn] has [state="normal"] *)
  status_text : string
}.

(** The window as [__init__] and [create_ui] leave it. *)
Definition initial : app :=
  {| video_path := None;
     output_path := None;
     video_btn_text := "Click to select video...";
     output_btn_text := "Click to select folder...";
     video_clear_shown := false;
     output_clear_shown := false;
     extract_enabled := false;
     status_text := "" |}.

(** The truth value Python gives a path that is [None] or a string. *)
Definition truthy (p : option string) : bool :=
  match p with
  | None => false
  | Some s => negb (s =? "")%string
  end.

(** [check_ready], lines 745-764. *)
Definition check_ready (a : app) : app :=
  if truthy (video_path a) && truthy (output_path a) then
    mkApp (video_path a) (output_path a) (video_btn_text a)
          (output_btn_text a) (video_clear_shown a) (output_clear_shown a)
          true "Ready! Click EXTRACT SLIDES"
  else
    mkApp (video_path a) (output_path a) (video_btn_text a)
          (output_btn_text a) (video_clear_shown a) (output_clear_shown a)
          false "".

Section Handlers.

(** [os.path.basename]. *)
Variable basename : string -> string.

(** [select_video], lines 679-698; [filename] is what the file dialog
    returned, empty when it was cancelled. *)
Definition select_video (filename : string) (a : app) : app :=
  if negb (filename =? "")%string then
    let name := basename filename in
    check_ready
      (mkApp (Some filename) (output_path a) (video_label name)
             (output_btn_text a) true (output_clear_shown a)
             (extract_enabled a) (status_text a))
  else a.

(** [clear_video], lines 700-712. *)
Definition clear_video (a : app) : app :=
  check_ready
    (mkApp None (output_path a) "Click to select video..."
           (output_btn_text a) false (output_clear_shown a)
           (extract_enabled a) (status_text a)).

(** [select_output], lines 714-729. *)
Definition select_output (folder : string) (a : app) : app :=
  if negb (folder =? "")%string then
    check_ready
      (mkApp (video_path a) (Some folder) (video_btn_text a)
             (output_label folder) (video_clear_shown a) true
             (extract_enabled a) (status_text a))
  else a.

(** [clear_output], lines 731-743. *)
Definition clear_output (a : app) : app :=
  check_ready
    (mkApp (video_path a) None (video_btn_text a)
           "Click to select folder..." (video_clear_shown a) false
           (extract_enabled a) (status_text a)).

(** What the user does with the two fields. *)
Inductive action : Type :=
  | SelectVideo (filename : string)
  | ClearVideo
  | SelectOutput (folder : string)
  | ClearOutput.

Definition handle (a : app) (act : action) : app :=
  match act with
  | SelectVideo filename => select_video filename a
  | ClearVideo => clear_video a
  | SelectOutput folder => select_output folder a
  | ClearOutput => clear_output a
  end.

(** The window after a sequence of actions. *)
Definition after (acts : list action) : app := fold_left handle acts initial.

End Handlers.

(** Whether a path is set. *)
Definition chosen (p : option string) : bool :=
  match p with
  | None => false
  | Some _ => true
  end.

(** The widgets agree with the two paths: a path that is set is not
    empty, a clear button shows exactly beside a path that is set, and the
    extract button is enabled, with the "Ready!" status, exactly when
    both paths are set. *)
Definition consistent (a : app) : Prop :=
  video_path a <> Some ""%string /\
  output_path a <> Some ""%string /\
  video_clear_shown a = chosen (video_path a) /\
  output_clear_shown a = chosen (output_path a) /\
  extract_enabled a = chosen (video_path a) && chosen (output_path a) /\
  status_text a = (if extract_enabled a
                   then "Ready! Click EXTRACT SLIDES" else "")%string.

(** What [run_extraction] shows when the extraction is over. *)
Inductive shown : Type :=
  | ShowSuccess (slides : Z) (dir : string)
      (* the "Success!" box, then [open_folder(dir)] (lines 823-827) *)
  | ShowNoSlides
      (* the box "No distinct slides found in this video." (line 832) *)
  | ShowErrorFails.
      (* [show_error] runs once the [except] block is left and [e] is
         unbound: it restores the button and hides the progress bar, then
         [str(e)] raises [NameError] and no box is shown (lines 836-849) *)

Section RunExtraction.

Context {Frame Gray : Type} {V : Vision Frame Gray}.

(** [os.path.splitext(os.path.basename(p))[0]] and [os.path.join]. *)
Variable video_name_of : string -> string.
Variable join : string -> string -> string.

(** What [cv2.VideoCapture] makes of a path. *)
Variable capture : string -> VideoCapture Frame.

(** Lines 792-793. *)
Definition output_dir_of (video output : string) : string :=
  join output (video_name_of video ++ "-slides")%string.

(** [run_extraction], lines 791-849, for a video path, an output path and
    the percentage chosen in the dropdown: the events of [extract_slides]
    and what is shown afterwards. *)
Definition run_extraction (video output : string) (percent : Z)
    : list (Event Frame) * shown :=
  let output_dir := output_dir_of video output in
  let threshold := (inject_Z percent / 100)%Q in
  match extract_slides (capture video) output_dir true (Some threshold) with
  | (evs, Return result) =>
      (evs, if 0 <? slides_of result
            then ShowSuccess (slides_of result) output_dir
            else ShowNoSlides)
  | (evs, Raise _) => (evs, ShowErrorFails)
  end.

End RunExtraction.

End App.

(** ** More inputs to run the definitions on *)

Module Samples.

(** A 20 by 20 array whose pixel in row [i], column [j] is [100 i + j]. *)
Definition grid : Region.image :=
  map (fun i => map (fun j => 100 * i + j) (numbers 0 20)) (numbers 0 20).

(** A synthetic source that opens and reports a frame count of zero. *)
Definition uncounted (fs : list Synthetic.frame)
    : VideoCapture Synthetic.frame :=
  mkCapture true (25 # 1) 0 fs.

(** A synthetic source that does not open. *)
Definition unopened : VideoCapture Synthetic.frame :=
  mkCapture false (25 # 1) 0 [].

(** [os.path.join] on a system that separates with a slash, for two
    relative paths. *)
Definition slash_join (a b : string) : string := (a ++ "/" ++ b)%string.

End Samples.

(** ** Proof automation *)

(** Unfold one sampled-frame transition and split on every test it makes. *)
Ltac crunch :=
  unfold step, step_writes, sampled_body, commit_if_stable, report, true_div;
  cbn;
  repeat (match goal with
          | |- context [match ?x with _ => _ end] =>
              lazymatch x with
              | context [match _ with _ => _ end] => fail
              | _ => destruct x eqn:?
              end
          end; cbn).

(** Turn the outcomes of the integer tests into inequalities. *)
Ltac tests :=
  repeat match goal with
         | H : (_ <? _) = true |- _ => apply Z.ltb_lt in H
         | H : (_ <? _) = false |- _ => apply Z.ltb_ge in H
         | H : (_ <=? _) = true |- _ => apply Z.leb_le in H
         | H : (_ <=? _) = false |- _ => apply Z.leb_gt in H
         | H : (_ =? _) = true |- _ => apply Z.eqb_eq in H
         | H : (_ =? _) = false |- _ => apply Z.eqb_neq in H
         end.

(** Use the facts of an invariant once a test has fixed an option. *)
Ltac settle :=
  repeat match goal with
         | I : Some _ <> None -> _ |- _ => specialize (I ltac:(discriminate))
         | I : None = None -> _ |- _ => specialize (I eq_refl)
         | I : None <> None -> _ |- _ => clear I
         | I : Some _ = None -> _ |- _ => clear I
         | I : forall g, Some ?c = Some g -> _ |- _ =>
             destruct (I c eq_refl) as (? & ? & ? & ?); clear I
         | I : forall g, None = Some g -> _ |- _ => clear I
         | H : _ /\ _ |- _ => destruct H
         end.

(** * Properties *)

(** ** Comparisons and the derived constants *)

Lemma Qltb_lt (a b : Q) : Qltb a b = true <-> (a < b)%Q.
Proof.
  unfold Qltb. rewrite negb_true_iff. split.
  - intros H. apply Qnot_le_lt. intros L.
    apply Qle_bool_iff in L. congruence.
  - intros H. destruct (Qle_bool b a) eqn:E; [|reflexivity].
    apply Qle_bool_iff in E. exfalso. exact (Qlt_not_le _ _ H E).
Qed.

Lemma Qltb_ge (a b : Q) : Qltb a b = false <-> (b <= a)%Q.
Proof.
  unfold Qltb. rewrite negb_false_iff. apply Qle_bool_iff.
Qed.

Lemma bind_ret_l {E A B : Type} (a : A) (k : A -> M E B) :
  bind (ret a) k = k a.
Proof. unfold bind, ret. destruct (k a). reflexivity. Qed.

Lemma py_int_floor (x : Q) : (0 <= x)%Q -> py_int x = Qfloor x.
Proof.
  destruct x as [n d]. unfold Qle, py_int, Qfloor. cbn. intros H.
  apply Z.quot_div_nonneg; lia.
Qed.

Lemma fps_of_pos (reported : Q) : (0 < fps_of reported)%Q.
Proof.
  unfold fps_of. destruct (Qle_bool reported 0) eqn:E.
  - reflexivity.
  - apply Qltb_lt. unfold Qltb. rewrite E. reflexivity.
Qed.

Lemma scaled_nonneg (c fps : Q) :
  (0 <= c)%Q -> (0 < fps)%Q -> (0 <= c * fps / inject_Z FRAME_SKIP)%Q.
Proof.
  intros Hc Hf. unfold Qdiv. apply Qmult_le_0_compat.
  - apply Qmult_le_0_compat; [exact Hc | apply Qlt_le_weak; exact Hf].
  - discriminate.
Qed.

Lemma py_int_bounds (x : Q) :
  (0 <= x)%Q -> (inject_Z (py_int x) <= x < inject_Z (py_int x) + 1)%Q.
Proof.
  intros H. rewrite (py_int_floor x H). split.
  - apply Qfloor_le.
  - assert (L := Qlt_floor x). rewrite inject_Z_plus in L. exact L.
Qed.

Lemma py_int_nonneg (x : Q) : (0 <= x)%Q -> 0 <= py_int x.
Proof.
  intros H. rewrite (py_int_floor x H).
  change 0 with (Qfloor 0). apply Qfloor_resp_le. exact H.
Qed.

Lemma cooldown_frames_of_nonneg (reported : Q) :
  0 <= cooldown_frames_of (fps_of reported).
Proof.
  apply py_int_nonneg, scaled_nonneg; [discriminate | apply fps_of_pos].
Qed.

(** ** Threshold derivation *)

Section Thresholds.

Context {Frame Gray : Type} {V : Vision Frame Gray}.

Lemma hist_thresh_of_antitone (t1 t2 : Q) :
  (t1 <= t2)%Q -> (hist_thresh_of t2 <= hist_thresh_of t1)%Q.
Proof. unfold hist_thresh_of. intros H. lra. Qed.

(** C1, as amended: for a fixed reference and current frame, lowering the
    similarity threshold never turns a "no change" verdict of
    [detect_scene_change] (run with the histogram threshold derived from
    it) into "change", and never turns a "similar" verdict of
    [frames_similar] into "not similar". *)
Theorem detection_monotone (ref_frame : option Gray) (a b : Gray)
    (lower higher : Q) :
  (lower <= higher)%Q ->
  (detect_scene_change ref_frame b lower (hist_thresh_of lower) = true ->
   detect_scene_change ref_frame b higher (hist_thresh_of higher) = true) /\
  (frames_similar a b higher = true -> frames_similar a b lower = true).
Proof.
  intros Hle. split.
  - unfold detect_scene_change. destruct ref_frame as [r|]; [|reflexivity].
    cbn zeta. rewrite !orb_true_iff, !Qltb_lt. intros [H|H].
    + left. eapply Qlt_le_trans; eassumption.
    + right. eapply Qle_lt_trans; [|exact H].
      apply hist_thresh_of_antitone. exact Hle.
  - unfold frames_similar. cbn zeta. rewrite !Qle_bool_iff. intros H.
    eapply Qle_trans; eassumption.
Qed.

End Thresholds.

(** ** The derived constants in double arithmetic *)

Section DoubleFacts.

Context {Frame Gray : Type} {V : Vision Frame Gray}.

Import PrimFloat.

Lemma truncates_whole (z : Z) : Doubles.truncates z (inject_Z z).
Proof.
  unfold Doubles.truncates, Qle, Qlt. cbn. split; intros _; lia.
Qed.

Lemma truncates_Qeq (z : Z) (v w : Q) :
  (v == w)%Q -> Doubles.truncates z v -> Doubles.truncates z w.
Proof.
  unfold Doubles.truncates. intros E [H1 H2].
  split; intros H; rewrite <- E in *; auto.
Qed.

Lemma py_int_truncates (x : float) (v : Q) :
  Doubles.value x = Some v ->
  exists z, Doubles.py_int x = Doubles.IntOf z /\ Doubles.truncates z v.
Proof.
  unfold Doubles.value, Doubles.py_int.
  destruct (FloatOps.Prim2SF x) as [s|s| |s m e]; try discriminate.
  - intros [= <-]. exists 0. split; [reflexivity|].
    apply (truncates_whole 0).
  - destruct e as [|p|p]; intros E;
      apply (f_equal (fun o => match o with Some q => q | None => v end))
        in E; cbv beta iota in E; subst v.
    + eexists. split; [reflexivity|]. rewrite Z.shiftl_0_r.
      destruct s; apply truncates_whole.
    + eexists. split; [reflexivity|].
      rewrite Z.shiftl_mul_pow2 by lia.
      destruct s.
      * replace (Z.neg m * 2 ^ Z.pos p) with (- (Z.pos m * 2 ^ Z.pos p))
          by lia.
        apply truncates_whole.
      * apply truncates_whole.
    + eexists. split; [reflexivity|].
      apply (truncates_Qeq _ ((if s then Z.neg m else Z.pos m) # 2 ^ p));
        [symmetry; apply Qred_correct|].
      change (Z.shiftl (Z.pos m) (Z.neg p))
        with (Z.shiftr (Z.pos m) (Z.pos p)).
      rewrite Z.shiftr_div_pow2 by lia.
      assert (D : Z.pos (2 ^ p) = 2 ^ Z.pos p) by apply Pos2Z.inj_pow.
      assert (Hd : 0 < 2 ^ Z.pos p) by (apply Z.pow_pos_nonneg; lia).
      assert (L := Z.mul_div_le (Z.pos m) (2 ^ Z.pos p) Hd).
      assert (U := Z.mul_succ_div_gt (Z.pos m) (2 ^ Z.pos p) Hd).
      set (q := Z.pos m / 2 ^ Z.pos p) in *.
      destruct s; unfold Doubles.truncates, Qle, Qlt; cbn; rewrite D;
        split; intros H; nia.
Qed.

Lemma py_int_without_value (x : float) :
  Doubles.value x = None ->
  Doubles.py_int x = Doubles.ValueError \/
  Doubles.py_int x = Doubles.OverflowError.
Proof.
  unfold Doubles.value, Doubles.py_int.
  destruct (FloatOps.Prim2SF x) as [s|s| |s m e]; try discriminate.
  - right. reflexivity.
  - left. reflexivity.
  - destruct e; discriminate.
Qed.

(** C2, as amended: for every frame rate the source reports, a double, a
    rate that is not above zero being replaced by 25, the two constants
    are [int(0.8 * fps / 2)] and [int(0.3 * fps / 2)] computed in double
    arithmetic: the quotient without its fractional part, not the nearest
    integer. A rate that is not above zero gives 10 and 3, as the rate 25
    does; a quotient that is not finite makes [int] raise. *)
Theorem derived_constants_truncate (cap : VideoCapture Frame) (dir : string)
    (callback : bool) (ssim_threshold : option Q) (reported : float) :
  let env := env_of cap dir callback ssim_threshold in
  ((reported <=? 0)%float = true ->
   Doubles.min_stable_frames reported = Doubles.IntOf 10 /\
   Doubles.cooldown_frames reported = Doubles.IntOf 3) /\
  ((CAP_PROP_FPS cap <= 0)%Q ->
   min_stable_frames env = 10 /\ cooldown_frames env = 3) /\
  (forall v, Doubles.value (Doubles.min_stable_quotient reported) = Some v ->
     exists z, Doubles.min_stable_frames reported = Doubles.IntOf z /\
               Doubles.truncates z v) /\
  (forall v, Doubles.value (Doubles.cooldown_quotient reported) = Some v ->
     exists z, Doubles.cooldown_frames reported = Doubles.IntOf z /\
               Doubles.truncates z v) /\
  (Doubles.value (Doubles.min_stable_quotient reported) = None ->
   Doubles.min_stable_frames reported = Doubles.ValueError \/
   Doubles.min_stable_frames reported = Doubles.OverflowError) /\
  (Doubles.value (Doubles.cooldown_quotient reported) = None ->
   Doubles.cooldown_frames reported = Doubles.ValueError \/
   Doubles.cooldown_frames reported = Doubles.OverflowError) /\
  Doubles.min_stable_frames 25 = Doubles.IntOf 10 /\
  Doubles.cooldown_frames 25 = Doubles.IntOf 3 /\
  Doubles.value (Doubles.cooldown_quotient 25) = Some (15 # 4).
Proof.
  intros env.
  split; [|split; [|split; [|split; [|split; [|split; [|split; [|split]]]]]]].
  - intros H. split.
    + unfold Doubles.min_stable_frames, Doubles.min_stable_quotient,
        Doubles.fps_of. rewrite H. vm_compute. reflexivity.
    + unfold Doubles.cooldown_frames, Doubles.cooldown_quotient,
        Doubles.fps_of. rewrite H. vm_compute. reflexivity.
  - intros H. subst env. cbn [env_of min_stable_frames cooldown_frames].
    unfold fps_of. apply Qle_bool_iff in H. rewrite H. split; reflexivity.
  - intros v. apply py_int_truncates.
  - intros v. apply py_int_truncates.
  - apply py_int_without_value.
  - apply py_int_without_value.
  - vm_compute. reflexivity.
  - vm_compute. reflexivity.
  - vm_compute. reflexivity.
Qed.

End DoubleFacts.

Section DoubleRuns.

Import PrimFloat.

Lemma derived_constants_truncate_witness :
  (Doubles.min_stable_frames (-3)%float = Doubles.IntOf 10 /\
   Doubles.cooldown_frames (-3)%float = Doubles.IntOf 3) /\
  (min_stable_frames
     (env_of (mkCapture true 0 (25 # 1) (Synthetic.cut 1 2 4)) "out" false
        None) = 10 /\
   cooldown_frames
     (env_of (mkCapture true 0 (25 # 1) (Synthetic.cut 1 2 4)) "out" false
        None) = 3) /\
  (exists z,
     Doubles.cooldown_frames 0x1.c555555555555p+6%float = Doubles.IntOf z /\
     Doubles.truncates z (17 # 1)) /\
  (Doubles.min_stable_frames PrimFloat.nan = Doubles.ValueError \/
   Doubles.min_stable_frames PrimFloat.nan = Doubles.OverflowError).
Proof.
  pose proof (derived_constants_truncate
                (mkCapture true 0 (25 # 1) (Synthetic.cut 1 2 4)) "out"
                false None (-3)%float) as (Ha & Hb & _).
  pose proof (derived_constants_truncate
                (mkCapture true 0 (25 # 1) (Synthetic.cut 1 2 4)) "out"
                false None 0x1.c555555555555p+6%float) as (_ & _ & _ & Hc & _).
  pose proof (derived_constants_truncate
                (mkCapture true 0 (25 # 1) (Synthetic.cut 1 2 4)) "out"
                false None PrimFloat.nan) as (_ & _ & _ & _ & Hd & _).
  split; [apply Ha; vm_compute; reflexivity|].
  split; [apply Hb; vm_compute; discriminate|].
  split; [apply Hc; vm_compute; reflexivity|].
  apply Hd; vm_compute; reflexivity.
Defined.

(** At the rate 113.33333333333333 the product [0.3 * fps] is rounded up to
    34, so the code obtains 17 where exact arithmetic on the same rate
    obtains 16. *)
Remark doubles_round_each_operation :
  Doubles.value 0x1.c555555555555p+6%float
    = Some (7975124340135253 # 70368744177664) /\
  Doubles.min_stable_frames 0x1.c555555555555p+6%float = Doubles.IntOf 45 /\
  Doubles.cooldown_frames 0x1.c555555555555p+6%float = Doubles.IntOf 17 /\
  cooldown_frames_of (7975124340135253 # 70368744177664) = 16.
Proof. vm_compute. repeat split; reflexivity. Qed.

(** On every whole-number rate from 1 to 240 frames per second the two
    arithmetics give the same constants. *)
Remark whole_rates_agree : forallb Doubles.agree (numbers 1 240) = true.
Proof. vm_compute. reflexivity. Qed.

End DoubleRuns.

(** The derivation with [round] gives another cooldown at 25 fps. *)
Lemma cooldown_rounding_counterexample :
  cooldown_frames env25 = 3 /\
  spec_cooldown_frames (fps_of (25 # 1)) FRAME_SKIP = 4 /\
  cooldown_frames env25 <> spec_cooldown_frames (fps_of (25 # 1)) FRAME_SKIP.
Proof. split; [reflexivity|]. split; [reflexivity | discriminate]. Qed.

Lemma detection_monotone_witness :
  (70 # 100 <= 85 # 100)%Q /\
  detect_scene_change (V := Synthetic.vision) (Some (0, 100)) (4, 100)
    (85 # 100) (hist_thresh_of (85 # 100)) = true /\
  frames_similar (V := Synthetic.vision) (4, 100) (4, 100) (70 # 100) = true.
Proof.
  assert (L : (70 # 100 <= 85 # 100)%Q) by (unfold Qle; cbn; lia).
  destruct (detection_monotone (V := Synthetic.vision) (Some (0, 100))
              (4, 100) (4, 100) (70 # 100) (85 # 100) L) as [D S].
  split; [exact L|]. split; [apply D | apply S]; reflexivity.
Defined.

(** Lowering the threshold from 85% to 70% on a hard cut between two
    scenes of similarity 0.8 loses the second slide. *)
Lemma lower_threshold_counterexample :
  let cap := Synthetic.camera (Synthetic.cut 0 2 20) in
  (70 # 100 < 85 # 100)%Q /\
  snd (extract_slides cap "out" false (Some (85 # 100)))
    = Return (Success 2 "out") /\
  snd (extract_slides cap "out" false (Some (70 # 100)))
    = Return (Success 1 "out").
Proof. cbn zeta. split; [reflexivity|]. split; vm_compute; reflexivity. Qed.

(** Raising it from 85% to 95% on two alternating scenes of similarity 0.9
    loses the second slide too: the count is monotone in neither
    direction. *)
Lemma higher_threshold_example :
  let cap := Synthetic.camera
               ([Synthetic.sharp 0; Synthetic.sharp 0]
                  ++ Synthetic.flicker 5 6 6) in
  snd (extract_slides cap "out" false (Some (85 # 100)))
    = Return (Success 2 "out") /\
  snd (extract_slides cap "out" false (Some (95 # 100)))
    = Return (Success 1 "out").
Proof. cbn zeta. split; vm_compute; reflexivity. Qed.

(** ** Opening the source, and sources of at most one frame *)

Section Boundary.

Context {Frame Gray : Type} {V : Vision Frame Gray}.

(** C9: when the source cannot be opened, [extract_slides] returns the
    error result with a slide count of zero as its value, and has made no
    call on the outside world before: no directory is created and no image
    is written. *)
Theorem unopenable_source (cap : VideoCapture Frame) (dir : string)
    (callback : bool) (ssim_threshold : option Q) :
  isOpened cap = false ->
  extract_slides cap dir callback ssim_threshold
    = ([], Return (Failure "Cannot open video" 0)).
Proof.
  intros H. unfold extract_slides. rewrite H. reflexivity.
Qed.

(** C7, as amended: a source that opens and yields no frame, or exactly
    one, returns a slide count of 0 and writes no image, whether the frame
    is blurry or sharp and whatever frame count the source reports: with
    [FRAME_SKIP = 2] frame 1 is not sampled. *)
Theorem at_most_one_frame (cap : VideoCapture Frame) (dir : string)
    (callback : bool) (ssim_threshold : option Q) :
  isOpened cap = true ->
  (List.length (frames cap) <= 1)%nat ->
  extract_slides cap dir callback ssim_threshold
    = (MakeDirs dir :: Release ::
         (if callback then [Progress 100 (Done 0)] else []),
       Return (Success 0 dir)).
Proof.
  intros Ho Hn. unfold extract_slides. rewrite Ho. cbn [negb].
  destruct (frames cap) as [|f [|g rest]]; cbn in Hn; [| |lia];
    destruct callback; reflexivity.
Qed.

(** The division by zero needs nothing more than a callback, a reported
    frame count whose integer part is zero, and a second frame. *)
Lemma zero_frame_count_always_raises (cap : VideoCapture Frame)
    (dir : string) (ssim_threshold : option Q) (f1 f2 : Frame)
    (rest : list Frame) :
  isOpened cap = true ->
  py_int (CAP_PROP_FRAME_COUNT cap) = 0 ->
  frames cap = f1 :: f2 :: rest ->
  extract_slides cap dir true ssim_threshold
    = ([MakeDirs dir], Raise ZeroDivisionError).
Proof.
  intros Ho Hc Hf. unfold extract_slides. rewrite Ho, Hf. cbn [negb].
  cbn [while_loop]. unfold loop_body at 1. cbn. rewrite Hc. reflexivity.
Qed.

End Boundary.

Lemma unopenable_source_witness :
  extract_slides (mkCapture false (25 # 1) 4 (Synthetic.cut 0 2 2))
    "out" true None
  = ([], Return (Failure "Cannot open video" 0)).
Proof.
  apply (unopenable_source (V := Synthetic.vision)). reflexivity.
Defined.

Lemma at_most_one_frame_witness :
  extract_slides (Synthetic.camera [Synthetic.sharp 0]) "out" true None
  = ([MakeDirs "out"; Release; Progress 100 (Done 0)],
     Return (Success 0 "out")).
Proof.
  apply (at_most_one_frame (V := Synthetic.vision)
           (Synthetic.camera [Synthetic.sharp 0]) "out" true None).
  - reflexivity.
  - cbn. lia.
Defined.

(** A single sharp frame is not committed: the count is 0, not 1. *)
Lemma single_sharp_frame_counterexample :
  is_blurry (cvtColor (Synthetic.sharp 0)) = false /\
  snd (extract_slides (Synthetic.camera [Synthetic.sharp 0]) "out" false None)
    = Return (Success 0 "out") /\
  snd (extract_slides (Synthetic.camera [Synthetic.sharp 0]) "out" false None)
    <> Return (Success 1 "out").
Proof. split; [reflexivity|]. split; [reflexivity | discriminate]. Qed.

(** C8: with a progress callback and a source that reports a frame count
    of zero, the first sampled frame makes [extract_slides] raise
    [ZeroDivisionError]: the percentage divides by the reported count.
    Nothing but the output directory has been created by then. *)
Theorem zero_frame_count_raises :
  extract_slides
    (mkCapture true (25 # 1) 0 [Synthetic.sharp 0; Synthetic.sharp 0])
    "out" true None
  = ([MakeDirs "out"], Raise ZeroDivisionError).
Proof. reflexivity. Qed.

(** ** The state machine *)

Section MachineFacts.

Context {Frame Gray : Type} {V : Vision Frame Gray}.

Implicit Types (env : Env) (l : @Locals Frame Gray) (f : Frame)
  (fs : list Frame) (P : Frame -> Prop).

Lemma init_inv P : Inv P init.
Proof.
  constructor; cbn; intros; try lia; try congruence; auto.
Qed.

Lemma step_inv env P l f :
  0 <= cooldown_frames env -> Inv P l -> P f -> Inv P (step env l f).
Proof.
  intros HC [I1 I2 I3 I4 I5 I6 I7] Pf.
  crunch; tests; settle.
  all: constructor; cbn; intros; try lia; try congruence; auto.
  all: eexists; split; [eassumption || reflexivity|].
  all: split; [congruence | assumption].
Qed.

Lemma run_inv env P l fs :
  0 <= cooldown_frames env -> Inv P l -> Forall P fs ->
  Inv P (run env l fs).
Proof.
  intros HC. revert l. induction fs as [|f fs IH]; intros l Hl HP.
  - exact Hl.
  - inversion HP; subst. cbn. apply IH; [|assumption].
    apply step_inv; assumption.
Qed.

Lemma run_app env l fs gs :
  run env l (fs ++ gs) = run env (run env l fs) gs.
Proof.
  revert l. induction fs as [|f fs IH]; intros l; cbn; [reflexivity|].
  apply IH.
Qed.

Lemma trace_app env l fs gs :
  trace env l (fs ++ gs) = trace env l fs ++ trace env (run env l fs) gs.
Proof.
  revert l. induction fs as [|f fs IH]; intros l; cbn; [reflexivity|].
  rewrite IH. reflexivity.
Qed.

Lemma trace_length env l fs : List.length (trace env l fs) = List.length fs.
Proof.
  revert l. induction fs as [|f fs IH]; intros l; cbn; [reflexivity|].
  rewrite IH. reflexivity.
Qed.

(** The reachable states: those after some sequence of sampled frames, in
    the environment [extract_slides] derives. *)
Lemma reachable_inv (cap : VideoCapture Frame) (dir : string)
    (callback : bool) (ssim_threshold : option Q) fs :
  Inv (fun f => In f fs)
      (run (env_of cap dir callback ssim_threshold) init fs).
Proof.
  apply run_inv.
  - apply cooldown_frames_of_nonneg.
  - apply init_inv.
  - apply Forall_forall. auto.
Qed.

(** *** A write, and what it tells about the step that made it *)

Lemma step_writes_cases env P l f n c :
  Inv P l -> In (n, c) (step_writes env l f) ->
  step_writes env l f = [(n, c)] /\
  n = slide_count l + 1 /\
  reference_slide (step env l f) = Some (cvtColor c) /\
  candidate_frame (step env l f) = None /\
  stable_count (step env l f) = 0 /\
  (c = f \/ exists g, candidate_frame l = Some g /\
                      candidate_frame_color l = Some c) /\
  ((reference_slide l = None /\ c = f /\
    is_blurry (cvtColor f) = false) \/
   (reference_slide l <> None /\
    cooldown (step env l f) = cooldown_frames env /\
    min_stable_frames env <= stable_count l + 1 /\
    cooldown l = 0)).
Proof.
  intros [I1 I2 I3 I4 I5 I6 I7].
  crunch; tests; settle; cbn; intros Hin.
  all: try contradiction.
  all: destruct Hin as [Hin|[]]; inversion Hin; subst.
  all: repeat split; try reflexivity; try congruence; auto.
  all: try (right; eexists; split; reflexivity).
  all: try (left; repeat split; congruence).
  all: right; repeat split; try discriminate; try lia.
Qed.

(** *** Distance between commits *)

Lemma spaced_step env P l f d :
  Inv P l -> Spaced env d l -> step_writes env l f = [] ->
  Spaced env (d + 1) (step env l f).
Proof.
  intros [I1 I2 I3 I4 I5 I6 I7] [S1 S2]. unfold Spaced.
  crunch; tests; settle; cbn; intros Hw.
  all: try discriminate; try congruence.
  all: split; [congruence | try lia].
  all: destruct (candidate_frame l) eqn:?; settle; lia.
Qed.

Lemma spaced_commit env P l f d w :
  Inv P l -> Spaced env d l -> In w (step_writes env l f) ->
  cooldown_frames env + min_stable_frames env <= d + 1.
Proof.
  intros Hl [S1 S2] Hw. destruct w as [n c].
  destruct (step_writes_cases env P l f n c Hl Hw)
    as (_ & _ & _ & _ & _ & _ & [[Hr _]|(_ & _ & Hm & Hc)]).
  - contradiction.
  - lia.
Qed.

Lemma spaced_after_commit env P l f w :
  Inv P l -> reference_slide l <> None -> In w (step_writes env l f) ->
  Spaced env 0 (step env l f).
Proof.
  intros Hl Hr Hw. destruct w as [n c].
  destruct (step_writes_cases env P l f n c Hl Hw)
    as (_ & _ & Hr' & _ & Hs & _ & [[Hn _]|(_ & Hc & _ & _)]).
  - contradiction.
  - split; [congruence | lia].
Qed.

Lemma spaced_trace env P fs :
  0 <= cooldown_frames env -> Forall P fs ->
  forall l d k w,
    0 <= d -> Inv P l -> Spaced env d l ->
    In w (nth k (trace env l fs) []) ->
    cooldown_frames env + min_stable_frames env <= d + Z.of_nat k + 1.
Proof.
  intros HC HP. induction HP as [|f fs Pf HP IH]; intros l d k w Hd Hl Hs Hw.
  - destruct k; contradiction.
  - cbn [trace] in Hw. destruct k as [|k].
    + cbn in Hw. assert (B := spaced_commit env P l f d w Hl Hs Hw). lia.
    + cbn [nth] in Hw.
      assert (Hl' : Inv P (step env l f)) by (apply step_inv; assumption).
      destruct (step_writes env l f) as [|w0 ws] eqn:E.
      * assert (Hs' := spaced_step env P l f d Hl Hs E).
        assert (B := IH _ (d + 1) k w ltac:(lia) Hl' Hs' Hw). lia.
      * assert (Hs' : Spaced env 0 (step env l f)).
        { apply (spaced_after_commit env P l f w0 Hl (proj1 Hs)).
          rewrite E. left. reflexivity. }
        assert (B := IH _ 0 k w ltac:(lia) Hl' Hs' Hw). lia.
Qed.

Lemma split_at {A : Type} (xs : list A) (i : nat) :
  (i < List.length xs)%nat ->
  exists pre x post, xs = pre ++ x :: post /\ List.length pre = i.
Proof.
  revert i. induction xs as [|x xs IH]; intros i Hi; cbn in Hi; [lia|].
  destruct i as [|i].
  - exists [], x, xs. split; reflexivity.
  - destruct (IH i ltac:(lia)) as (pre & y & post & E & L).
    exists (x :: pre), y, post. split; cbn; congruence.
Qed.

Lemma nth_inhabited {A : Type} (xss : list (list A)) (i : nat) (a : A) :
  In a (nth i xss []) -> (i < List.length xss)%nat.
Proof.
  intros H. destruct (Nat.lt_ge_cases i (List.length xss)) as [L|L];
    [exact L|].
  rewrite (nth_overflow xss [] L) in H. contradiction.
Qed.

(** The writes of sampled frame [i], when [fs] is split there. *)
Lemma trace_nth_middle env l pre f post :
  nth (List.length pre) (trace env l (pre ++ f :: post)) []
  = step_writes env (run env l pre) f.
Proof.
  rewrite trace_app. cbn [trace].
  rewrite <- (trace_length env l pre). apply nth_middle.
Qed.

Lemma trace_nth_after env l pre f post k :
  nth (List.length pre + S k) (trace env l (pre ++ f :: post)) []
  = nth k (trace env (run env l (pre ++ [f])) post) [].
Proof.
  rewrite trace_app. cbn [trace].
  rewrite app_nth2; rewrite trace_length; [|lia].
  replace (List.length pre + S k - List.length pre)%nat with (S k) by lia.
  cbn [nth]. rewrite run_app. reflexivity.
Qed.

(** C3: take two commits of one run, the earlier of which is not the
    first slide. The number of sampled frames from the earlier to the
    later is at least [cooldown_frames + min_stable_frames]. This holds of
    any two such commits, so of two consecutive ones. *)
Theorem cooldown_enforcement (cap : VideoCapture Frame) (dir : string)
    (callback : bool) (ssim_threshold : option Q) fs
    (i j : nat) (n n' : Z) (c c' : Frame) :
  let env := env_of cap dir callback ssim_threshold in
  (i < j)%nat ->
  In (n, c) (nth i (trace env init fs) []) ->
  2 <= n ->
  In (n', c') (nth j (trace env init fs) []) ->
  cooldown_frames env + min_stable_frames env
    <= Z.of_nat j - Z.of_nat i.
Proof.
  intros env Hij Hi Hn Hj.
  assert (HC : 0 <= cooldown_frames env)
    by apply cooldown_frames_of_nonneg.
  assert (Li := nth_inhabited _ _ _ Hi). rewrite trace_length in Li.
  destruct (split_at fs i Li) as (pre & f & post & E & Lp). subst fs i.
  set (P := fun x : Frame => In x (pre ++ f :: post)).
  assert (HP : Forall P (pre ++ f :: post)) by (apply Forall_forall; auto).
  apply Forall_app in HP. destruct HP as [HPpre HPpost].
  inversion HPpost as [|? ? Pf HPpost']; subst.
  assert (Hl : Inv P (run env init pre))
    by (apply run_inv; [exact HC | apply init_inv | exact HPpre]).
  rewrite trace_nth_middle in Hi.
  destruct (step_writes_cases env P _ f n c Hl Hi)
    as (_ & En & _ & _ & _ & _ & [[Hr _]|(Hr & _)]).
  { destruct Hl as [_ _ _ _ I5 _ _]. destruct (I5 Hr) as (_ & _ & Z0). lia. }
  replace j with (List.length pre + S (j - List.length pre - 1))%nat in Hj
    by lia.
  rewrite trace_nth_after in Hj.
  assert (Hl' : Inv P (run env init (pre ++ [f]))).
  { apply run_inv; [exact HC | apply init_inv |].
    apply Forall_app. split; [exact HPpre | constructor; [exact Pf|constructor]]. }
  assert (Hs : Spaced env 0 (run env init (pre ++ [f]))).
  { rewrite run_app. cbn [run].
    exact (spaced_after_commit env P _ f (n, c) Hl Hr Hi). }
  assert (B := spaced_trace env P post HC HPpost' _ 0 _ _ ltac:(lia) Hl' Hs Hj).
  lia.
Qed.

(** *** Candidate and cooldown *)

(** C4: a candidate and a cooldown counter above zero never coexist. The
    property (with the counter never negative) holds of the initial state,
    every transition preserves it, and so after any sequence of sampled
    frames: a positive counter means no candidate, and a candidate means
    the counter is zero. *)
Theorem candidate_excludes_cooldown (cap : VideoCapture Frame)
    (dir : string) (callback : bool) (ssim_threshold : option Q) :
  let env := env_of cap dir callback ssim_threshold in
  Exclusive (@init Frame Gray) /\
  (forall l f, Exclusive l -> Exclusive (step env l f)) /\
  (forall fs,
     let l := run env init fs in
     (0 < cooldown l -> candidate_frame l = None) /\
     (candidate_frame l <> None -> cooldown l = 0)).
Proof.
  intros env.
  assert (HC : 0 <= cooldown_frames env)
    by apply cooldown_frames_of_nonneg.
  assert (Hstep : forall l f, Exclusive l -> Exclusive (step env l f)).
  { intros l f [E1 E2]. unfold Exclusive.
    crunch; tests; cbn; split; intros; try lia; try congruence; auto.
    all: apply E2; lia. }
  assert (Hrun : forall fs l, Exclusive l -> Exclusive (run env l fs)).
  { induction fs as [|f fs IH]; intros l Hl; cbn; [exact Hl|].
    apply IH, Hstep, Hl. }
  assert (H0 : Exclusive (@init Frame Gray)) by (split; cbn; [lia | reflexivity]).
  split; [exact H0|]. split; [exact Hstep|].
  intros fs l. destruct (Hrun fs init H0) as [E1 E2]. fold l in E1, E2.
  split; [exact E2|]. intros Hc.
  destruct (Z.eq_dec (cooldown l) 0) as [Z0|NZ]; [exact Z0|].
  exfalso. apply Hc, E2. lia.
Qed.

(** *** Blur *)

(** C5: a blurry sampled frame met outside cooldown writes nothing and
    leaves the slide count and the reference as they were; the state it
    leaves has no candidate and a stability count of zero. That state is
    given outright from the one before, with no similarity or histogram
    score in it: no change detection has run. *)
Theorem blur_veto (cap : VideoCapture Frame) (dir : string)
    (callback : bool) (ssim_threshold : option Q) fs f :
  let env := env_of cap dir callback ssim_threshold in
  let l := run env init fs in
  is_blurry (cvtColor f) = true ->
  cooldown l = 0 ->
  step_writes env l f = [] /\
  step env l f
    = match reference_slide l with
      | None => l
      | Some _ => set_candidate_frame None (set_stable_count 0 l)
      end /\
  slide_count (step env l f) = slide_count l /\
  reference_slide (step env l f) = reference_slide l /\
  candidate_frame (step env l f) = None /\
  stable_count (step env l f) = 0.
Proof.
  intros env l Hb Hc.
  destruct (reachable_inv cap dir callback ssim_threshold fs)
    as [I1 I2 I3 I4 I5 I6 I7].
  fold env in I1, I2, I3, I4, I5, I6, I7.
  fold l in I1, I2, I3, I4, I5, I6, I7.
  unfold step, step_writes, sampled_body, report. cbn.
  rewrite Hb. destruct (reference_slide l) eqn:Er; cbn.
  - rewrite Hc. cbn. repeat split; try reflexivity; congruence.
  - destruct (I5 eq_refl) as (Hn & _ & _).
    repeat split; try reflexivity; try congruence; auto.
Qed.

(** *** The first slide *)

Lemma blurry_prefix env l fs :
  reference_slide l = None ->
  Forall (fun x => is_blurry (cvtColor x) = true) fs ->
  run env l fs = l /\ List.concat (trace env l fs) = [].
Proof.
  intros Hr HB. induction HB as [|f fs Hb HB IH]; [split; reflexivity|].
  assert (E : step env l f = l /\ step_writes env l f = []).
  { unfold step, step_writes, sampled_body, report. cbn.
    rewrite Hr, Hb. split; reflexivity. }
  destruct E as [E1 E2]. cbn. rewrite E1, E2. exact IH.
Qed.

(** C6: when the first [k] sampled frames are blurry and the next one,
    [f], is sharp, the first image written is [f], as slide 1, and once
    [f] is processed the reference is its grayscale form and the slide
    count is 1. When every sampled frame is blurry nothing is written and
    the slide count stays 0. *)
Theorem first_frame_gating (cap : VideoCapture Frame) (dir : string)
    (callback : bool) (ssim_threshold : option Q) (pre post : list Frame)
    (f : Frame) :
  let env := env_of cap dir callback ssim_threshold in
  let blurred := fun x : Frame => is_blurry (cvtColor x) = true in
  (Forall blurred pre -> is_blurry (cvtColor f) = false ->
   (exists later, List.concat (trace env init (pre ++ f :: post))
                  = (1, f) :: later) /\
   List.concat (trace env init (pre ++ [f])) = [(1, f)] /\
   reference_slide (run env init (pre ++ [f])) = Some (cvtColor f) /\
   slide_count (run env init (pre ++ [f])) = 1) /\
  (Forall blurred pre ->
   List.concat (trace env init pre) = [] /\
   reference_slide (run env init pre) = None /\
   slide_count (run env init pre) = 0).
Proof.
  intros env blurred. split.
  - intros HB Hf.
    destruct (blurry_prefix env init pre eq_refl HB) as [E1 E2].
    assert (S1 : step env init f
                 = set_reference_slide (Some (cvtColor f))
                     (set_slide_count 1 init)
                 /\ step_writes env init f = [(1, f)]).
    { unfold step, step_writes, sampled_body, report. cbn.
      rewrite Hf. split; reflexivity. }
    destruct S1 as [S1 S2].
    rewrite !trace_app, !concat_app, !run_app, E1, E2. cbn [trace run].
    rewrite S1, S2. cbn.
    repeat split; try reflexivity. eexists. reflexivity.
  - intros HB.
    destruct (blurry_prefix env init pre eq_refl HB) as [E1 E2].
    rewrite E1, E2. repeat split; reflexivity.
Qed.

(** *** The written image and the reference *)

Lemma firstn_middle {A : Type} (pre : list A) (x : A) (post : list A) :
  firstn (S (List.length pre)) (pre ++ x :: post) = pre ++ [x].
Proof.
  induction pre as [|y pre IH]; [reflexivity|].
  cbn [List.length app]. rewrite firstn_cons, IH. reflexivity.
Qed.

(** C10: the image a commit writes is one of the frames sampled so far,
    and the reference the commit installs is the grayscale form of that
    same frame; between commits, a candidate's grayscale form is always
    the grayscale form of its colour form, a frame sampled so far. (This
    holds of the first commit as well.) *)
Theorem commit_pairs (cap : VideoCapture Frame) (dir : string)
    (callback : bool) (ssim_threshold : option Q) fs :
  let env := env_of cap dir callback ssim_threshold in
  (forall i n c,
     In (n, c) (nth i (trace env init fs) []) ->
     In c (firstn (S i) fs) /\
     reference_slide (run env init (firstn (S i) fs))
       = Some (cvtColor c)) /\
  (forall g,
     candidate_frame (run env init fs) = Some g ->
     exists c, candidate_frame_color (run env init fs) = Some c /\
               g = cvtColor c /\ In c fs).
Proof.
  intros env. split.
  - intros i n c Hi.
    assert (Li := nth_inhabited _ _ _ Hi). rewrite trace_length in Li.
    destruct (split_at fs i Li) as (pre & f & post & E & Lp). subst fs i.
    rewrite firstn_middle. rewrite trace_nth_middle in Hi.
    assert (Hl := reachable_inv cap dir callback ssim_threshold pre).
    fold env in Hl.
    destruct (step_writes_cases env _ _ f n c Hl Hi)
      as (_ & _ & Hr & _ & _ & Hc & _).
    rewrite run_app. cbn [run]. split; [|exact Hr].
    apply in_or_app. destruct Hc as [->|(g & Hg & Hcol)].
    + right. left. reflexivity.
    + left. destruct Hl as [_ _ _ _ _ _ I7].
      destruct (I7 g Hg) as (c0 & Hc0 & _ & Hin). congruence.
  - intros g Hg.
    destruct (reachable_inv cap dir callback ssim_threshold fs)
      as [_ _ _ _ _ _ I7].
    exact (I7 g Hg).
Qed.

End MachineFacts.

(** ** [extract_slides] runs the state machine on the sampled frames *)

Section Refinement.

Context {Frame Gray : Type} {V : Vision Frame Gray}.

Implicit Types (env : Env) (l : @Locals Frame Gray) (f : Frame)
  (fs : list Frame) (P : Frame -> Prop).

Lemma writes_of_app (xs ys : list (Event Frame)) :
  writes_of (xs ++ ys) = writes_of xs ++ writes_of ys.
Proof.
  induction xs as [|[] xs IH]; cbn; rewrite ?IH; reflexivity.
Qed.

Lemma Inv_frame_idx P l i : Inv P l -> Inv P (set_frame_idx i l).
Proof. intros [I1 I2 I3 I4 I5 I6 I7]. constructor; assumption. Qed.

Lemma step_frame_idx env l f i :
  step env (set_frame_idx i l) f = set_frame_idx i (step env l f) /\
  step_writes env (set_frame_idx i l) f = step_writes env l f.
Proof.
  crunch; split; reflexivity.
Qed.

Lemma run_frame_idx env fs l i :
  run env (set_frame_idx i l) fs = set_frame_idx i (run env l fs) /\
  trace env (set_frame_idx i l) fs = trace env l fs.
Proof.
  revert l. induction fs as [|f fs IH]; intros l; [split; reflexivity|].
  cbn [run trace]. destruct (step_frame_idx env l f i) as [E1 E2].
  rewrite E1, E2. destruct (IH (step env l f)) as [R1 R2].
  rewrite R1, R2. split; reflexivity.
Qed.

(** With the percentage computable, a sampled frame is processed without
    an exception; the progress report changes neither the state left nor
    the images written. *)
Lemma sampled_body_machine env P l f :
  Inv P l -> reportable env ->
  exists evs,
    sampled_body env l f = (evs, Return (step env l f)) /\
    writes_of evs = step_writes env l f.
Proof.
  intros [I1 I2 I3 I4 I5 I6 I7] Hrep.
  crunch; tests; settle.
  all: try (destruct Hrep; congruence).
  all: try congruence.
  all: eexists; split; reflexivity.
Qed.

Lemma set_frame_idx_twice l i j :
  set_frame_idx j (set_frame_idx i l) = set_frame_idx j l.
Proof. reflexivity. Qed.

Lemma while_loop_machine env P fs :
  0 <= cooldown_frames env -> reportable env -> Forall P fs ->
  forall l, Inv P l ->
  exists evs,
    while_loop env fs l
      = (evs,
         Return (set_frame_idx (frame_idx l + Z.of_nat (List.length fs))
                   (run env l (sampled_from (frame_idx l) fs))))
    /\ writes_of evs
       = List.concat (trace env l (sampled_from (frame_idx l) fs)).
Proof.
  intros HC Hrep HP.
  induction HP as [|f fs Pf HP IH]; intros l Hl.
  - exists []. cbn. rewrite Z.add_0_r. destruct l. split; reflexivity.
  - cbn [while_loop sampled_from]. unfold loop_body.
    cbn [frame_idx set_frame_idx].
    replace (frame_idx l + Z.of_nat (List.length (f :: fs)))
      with (frame_idx l + 1 + Z.of_nat (List.length fs))
      by (cbn [List.length]; lia).
    destruct ((frame_idx l + 1) mod FRAME_SKIP =? 0) eqn:E; cbn [negb].
    + set (l1 := set_frame_idx (frame_idx l + 1) l).
      assert (Hl1 : Inv P l1) by (apply Inv_frame_idx; exact Hl).
      destruct (sampled_body_machine env P l1 f Hl1 Hrep)
        as (evs1 & E1 & W1).
      assert (Hl2 : Inv P (step env l1 f))
        by (apply step_inv; assumption).
      destruct (IH _ Hl2) as (evs2 & E2 & W2).
      exists (evs1 ++ evs2). unfold bind. rewrite E1, E2.
      destruct (step_frame_idx env l f (frame_idx l + 1)) as [S1 S2].
      fold l1 in S1, S2.
      rewrite writes_of_app, W1, W2, S1, S2. cbn [frame_idx set_frame_idx].
      destruct (run_frame_idx env
                  (sampled_from (frame_idx l + 1) fs)
                  (step env l f) (frame_idx l + 1)) as [R1 R2].
      rewrite R1, R2. cbn [run trace List.concat].
      split; reflexivity.
    + set (l1 := set_frame_idx (frame_idx l + 1) l).
      assert (Hl1 : Inv P l1) by (apply Inv_frame_idx; exact Hl).
      destruct (IH _ Hl1) as (evs2 & E2 & W2).
      exists evs2. rewrite bind_ret_l. rewrite E2, W2.
      subst l1. cbn [frame_idx set_frame_idx].
      destruct (run_frame_idx env
                  (sampled_from (frame_idx l + 1) fs)
                  l (frame_idx l + 1)) as [R1 R2].
      rewrite R1, R2. split; reflexivity.
Qed.

(** Whenever the source opens and the percentage is computable,
    [extract_slides] returns normally: its slide count is that of the
    state machine run on the sampled frames, and the images it writes are
    the machine's, in order. *)
Theorem extract_slides_machine (cap : VideoCapture Frame) (dir : string)
    (callback : bool) (ssim_threshold : option Q) :
  let env := env_of cap dir callback ssim_threshold in
  isOpened cap = true ->
  reportable env ->
  exists evs,
    extract_slides cap dir callback ssim_threshold
      = (evs,
         Return (Success
                   (slide_count (run env init (sampled (frames cap))))
                   dir))
    /\ writes_of evs
       = List.concat (trace env init (sampled (frames cap))).
Proof.
  intros env Ho Hrep. unfold extract_slides. rewrite Ho. cbn [negb].
  fold env.
  destruct (while_loop_machine env (fun _ => True) (frames cap)
              (cooldown_frames_of_nonneg _) Hrep
              ltac:(apply Forall_forall; auto) init (init_inv _))
    as (evs & E & W).
  cbn [frame_idx init] in E, W. fold (sampled (frames cap)) in E, W.
  unfold bind at 1. unfold emit at 1. unfold bind at 1. rewrite E.
  destruct callback; cbn.
  - eexists. split; [reflexivity|]. cbn.
    rewrite writes_of_app, W. cbn. apply app_nil_r.
  - eexists. split; [reflexivity|]. cbn.
    rewrite writes_of_app, W. cbn. apply app_nil_r.
Qed.

End Refinement.

(** ** The theorems at work on the synthetic camera *)

Section Runs.

Import Synthetic.

Lemma cooldown_enforcement_witness :
  cooldown_frames env25 + min_stable_frames env25
    <= Z.of_nat 23 - Z.of_nat 10.
Proof.
  apply (cooldown_enforcement (V := vision) (camera []) "out" false None
           three_scenes 10 23 2 3 (sharp 2) (sharp 9)).
  - lia.
  - vm_compute. left. reflexivity.
  - lia.
  - vm_compute. left. reflexivity.
Defined.

(** The first commit starts no cooldown: on [three_scenes] slide 2 is
    committed 10 sampled frames after slide 1, fewer than 3 + 10. *)
Lemma first_commit_starts_no_cooldown :
  nth 0 (trace env25 init three_scenes) [] = [(1, sharp 0)] /\
  nth 10 (trace env25 init three_scenes) [] = [(2, sharp 2)] /\
  Z.of_nat 10 - Z.of_nat 0
    < cooldown_frames env25 + min_stable_frames env25.
Proof. split; [|split]; vm_compute; reflexivity. Qed.

Lemma candidate_excludes_cooldown_witness :
  candidate_frame (run env25 init (sharp 0 :: repeat (sharp 2) 10)) = None /\
  cooldown (run env25 init [sharp 0; sharp 2]) = 0.
Proof.
  destruct (candidate_excludes_cooldown (V := vision)
              (camera []) "out" false None) as (_ & _ & H).
  split.
  - apply (H (sharp 0 :: repeat (sharp 2) 10)). vm_compute. reflexivity.
  - apply (H [sharp 0; sharp 2]). vm_compute. discriminate.
Defined.

Lemma blur_veto_witness :
  let l := run env25 init [sharp 0; sharp 2] in
  candidate_frame l = Some (2, 100) /\
  step_writes env25 l (blurry 2) = [] /\
  candidate_frame (step env25 l (blurry 2)) = None /\
  stable_count (step env25 l (blurry 2)) = 0.
Proof.
  cbn zeta. split; [reflexivity|].
  destruct (blur_veto (V := vision) (camera []) "out" false None
              [sharp 0; sharp 2] (blurry 2))
    as (W & _ & _ & _ & C & S).
  - reflexivity.
  - vm_compute. reflexivity.
  - split; [exact W|]. split; [exact C | exact S].
Defined.

Lemma first_frame_gating_witness :
  List.concat (trace env25 init [blurry 0; blurry 1; sharp 2])
    = [(1, sharp 2)] /\
  reference_slide (run env25 init [blurry 0; blurry 1; sharp 2])
    = Some (2, 100) /\
  slide_count (run env25 init [blurry 0; blurry 1]) = 0.
Proof.
  assert (B : Forall (fun x : frame => is_blurry (cvtColor x) = true)
                [blurry 0; blurry 1])
    by (repeat constructor).
  destruct (first_frame_gating (V := vision) (camera []) "out" false None
              [blurry 0; blurry 1] [sharp 3] (sharp 2)) as [H1 H2].
  destruct (H1 B eq_refl) as (_ & W & R & _).
  destruct (H2 B) as (_ & _ & N).
  split; [exact W|]. split; [exact R | exact N].
Defined.

Lemma commit_pairs_witness :
  In (sharp 2) (firstn 11 three_scenes) /\
  reference_slide (run env25 init (firstn 11 three_scenes))
    = Some (cvtColor (sharp 2)) /\
  exists c, candidate_frame_color (run env25 init [sharp 0; sharp 2])
            = Some c /\ (2, 100) = cvtColor c /\
            In c [sharp 0; sharp 2].
Proof.
  destruct (commit_pairs (V := vision) (camera []) "out" false None
              three_scenes) as [H _].
  destruct (H 10%nat 2 (sharp 2)) as [H1 H2].
  { vm_compute. left. reflexivity. }
  destruct (commit_pairs (V := vision) (camera []) "out" false None
              [sharp 0; sharp 2]) as [_ G].
  split; [exact H1|]. split; [exact H2|].
  apply G. reflexivity.
Defined.

End Runs.

(** * Further properties of the engine *)

Section EngineFacts.

Context {Frame Gray : Type} {V : Vision Frame Gray}.

Implicit Types (env : Env) (l : @Locals Frame Gray) (f : Frame)
  (fs : list Frame) (P : Frame -> Prop).

(** *** Numbering *)

Lemma step_numbering env P l f :
  Inv P l ->
  (step_writes env l f = [] /\
   slide_count (step env l f) = slide_count l) \/
  (exists c, step_writes env l f = [(slide_count l + 1, c)] /\
             slide_count (step env l f) = slide_count l + 1).
Proof.
  intros [I1 I2 I3 I4 I5 I6 I7].
  crunch; tests; settle; cbn.
  all: try (left; split; reflexivity).
  all: try (right; eexists; split; reflexivity).
  all: congruence.
Qed.

Lemma numbers_app (a : Z) (n m : nat) :
  numbers a (n + m) = numbers a n ++ numbers (a + Z.of_nat n) m.
Proof.
  revert a. induction n as [|n IH]; intros a.
  - cbn. rewrite Z.add_0_r. reflexivity.
  - cbn [Nat.add numbers app]. rewrite IH. do 3 f_equal. lia.
Qed.

Lemma trace_numbering env P fs :
  0 <= cooldown_frames env -> Forall P fs ->
  forall l, Inv P l ->
  let ws := List.concat (trace env l fs) in
  map fst ws = numbers (slide_count l + 1) (List.length ws) /\
  slide_count (run env l fs) = slide_count l + Z.of_nat (List.length ws).
Proof.
  intros HC HP. induction HP as [|f fs Pf HP IH]; intros l Hl; cbn zeta.
  - cbn. split; [reflexivity | lia].
  - cbn [trace run List.concat].
    assert (Hl' : Inv P (step env l f)) by (apply step_inv; assumption).
    destruct (IH _ Hl') as [E1 E2]. cbn zeta in E1, E2.
    destruct (step_numbering env P l f Hl) as [[W S]|(c & W & S)];
      rewrite W, E2, S.
    + cbn [app]. rewrite E1, S. split; reflexivity.
    + cbn [app map fst List.length numbers]. rewrite E1, S.
      split; [reflexivity | lia].
Qed.

(** *** Which frames are sampled *)

Lemma sampled_from_nth {A : Type} (xs : list A) :
  forall i k,
    (i mod 2 = 0 ->
     nth_error (sampled_from i xs) k = nth_error xs (2 * k + 1)) /\
    (i mod 2 = 1 ->
     nth_error (sampled_from i xs) k = nth_error xs (2 * k)).
Proof.
  induction xs as [|x xs IH]; intros i k.
  - split; intros _; cbn; destruct k; reflexivity.
  - cbn [sampled_from]. unfold FRAME_SKIP. split; intros Hi.
    + assert (E : ((i + 1) mod 2 =? 0) = false) by (apply Z.eqb_neq; Z.div_mod_to_equations; lia).
      rewrite E. replace (2 * k + 1)%nat with (S (2 * k)) by lia.
      cbn [nth_error]. apply (IH (i + 1) k). Z.div_mod_to_equations; lia.
    + assert (E : ((i + 1) mod 2 =? 0) = true) by (apply Z.eqb_eq; Z.div_mod_to_equations; lia).
      rewrite E. destruct k as [|k]; [reflexivity|].
      replace (2 * S k)%nat with (S (2 * k + 1)) by lia.
      cbn [nth_error]. apply (IH (i + 1) k). Z.div_mod_to_equations; lia.
Qed.

Lemma sampled_from_length {A : Type} (xs : list A) :
  forall i,
    (i mod 2 = 0 ->
     Z.of_nat (List.length (sampled_from i xs))
     = Z.of_nat (List.length xs) / 2) /\
    (i mod 2 = 1 ->
     Z.of_nat (List.length (sampled_from i xs))
     = (Z.of_nat (List.length xs) + 1) / 2).
Proof.
  induction xs as [|x xs IH]; intros i.
  - split; intros _; reflexivity.
  - cbn [sampled_from]. unfold FRAME_SKIP. split; intros Hi.
    + assert (E : ((i + 1) mod 2 =? 0) = false)
        by (apply Z.eqb_neq; Z.div_mod_to_equations; lia).
      rewrite E.
      rewrite (proj2 (IH (i + 1))) by (Z.div_mod_to_equations; lia).
      cbn [List.length]. Z.div_mod_to_equations; lia.
    + assert (E : ((i + 1) mod 2 =? 0) = true)
        by (apply Z.eqb_eq; Z.div_mod_to_equations; lia).
      rewrite E. cbn [List.length]. rewrite Nat2Z.inj_succ.
      rewrite (proj1 (IH (i + 1))) by (Z.div_mod_to_equations; lia).
      Z.div_mod_to_equations; lia.
Qed.

(** X3: the frames the loop evaluates are those at the even positions of
    the source, counted from 1: the [k]-th sampled frame (from 0) is frame
    [2k + 2], and half of the frames, rounded down, are sampled. *)
Theorem sampled_positions (fs : list Frame) (k : nat) :
  nth_error (sampled fs) k = nth_error fs (2 * k + 1) /\
  Z.of_nat (List.length (sampled fs)) = Z.of_nat (List.length fs) / 2.
Proof.
  unfold sampled. split.
  - apply (sampled_from_nth fs 0 k). reflexivity.
  - apply (sampled_from_length fs 0). reflexivity.
Qed.

Lemma trace_writes_bound env fs :
  forall l, (List.length (List.concat (trace env l fs)) <= List.length fs)%nat.
Proof.
  induction fs as [|f fs IH]; intros l; cbn [trace List.concat List.length];
    [lia|].
  rewrite length_app. specialize (IH (step env l f)).
  assert (L : (List.length (step_writes env l f) <= 1)%nat).
  { clear IH. crunch; cbn; lia. }
  lia.
Qed.

(** X1: when [extract_slides] returns normally, the images it wrote are
    numbered 1, 2, ..., n in the order written, without gap or repeat, and
    the slide count it returns is n, the number of images written. *)
Theorem slide_numbering (cap : VideoCapture Frame) (dir : string)
    (callback : bool) (ssim_threshold : option Q) :
  isOpened cap = true ->
  reportable (env_of cap dir callback ssim_threshold) ->
  exists evs,
    extract_slides cap dir callback ssim_threshold
      = (evs, Return (Success (Z.of_nat (List.length (writes_of evs))) dir))
    /\ map fst (writes_of evs) = numbers 1 (List.length (writes_of evs)).
Proof.
  intros Ho Hrep.
  destruct (extract_slides_machine cap dir callback ssim_threshold Ho Hrep)
    as (evs & E & W).
  set (env := env_of cap dir callback ssim_threshold) in *.
  destruct (trace_numbering env (fun _ => True) (sampled (frames cap))
              (cooldown_frames_of_nonneg _)
              ltac:(apply Forall_forall; auto) init (init_inv _))
    as [N1 N2].
  cbn zeta in N1, N2. rewrite <- W in N1, N2. cbn [slide_count init] in N1, N2.
  exists evs. rewrite E, N2. split; [reflexivity | exact N1].
Qed.

(** X2: the slide count returned is at most the number of sampled frames,
    half the number of frames the source delivered. *)
Theorem slide_count_bound (cap : VideoCapture Frame) (dir : string)
    (callback : bool) (ssim_threshold : option Q) :
  isOpened cap = true ->
  reportable (env_of cap dir callback ssim_threshold) ->
  exists evs n,
    extract_slides cap dir callback ssim_threshold
      = (evs, Return (Success n dir))
    /\ 0 <= n <= Z.of_nat (List.length (frames cap)) / 2.
Proof.
  intros Ho Hrep.
  destruct (extract_slides_machine cap dir callback ssim_threshold Ho Hrep)
    as (evs & E & W).
  set (env := env_of cap dir callback ssim_threshold) in *.
  destruct (trace_numbering env (fun _ => True) (sampled (frames cap))
              (cooldown_frames_of_nonneg _)
              ltac:(apply Forall_forall; auto) init (init_inv _))
    as [_ N2].
  cbn zeta in N2. cbn [slide_count init] in N2.
  assert (B := trace_writes_bound env (sampled (frames cap)) init).
  destruct (sampled_from_length (frames cap) 0) as [L _].
  specialize (L eq_refl). fold (sampled (frames cap)) in L.
  exists evs, (slide_count (run env init (sampled (frames cap)))).
  split; [exact E|]. rewrite N2. lia.
Qed.

(** *** The reference *)

Lemma reference_kept env l f :
  reference_slide l <> None -> reference_slide (step env l f) <> None.
Proof.
  intros Hr. crunch; cbn; congruence.
Qed.

Lemma reference_kept_run env fs :
  forall l, reference_slide l <> None ->
            reference_slide (run env l fs) <> None.
Proof.
  induction fs as [|f fs IH]; intros l Hr; cbn; [exact Hr|].
  apply IH, reference_kept, Hr.
Qed.

(** X4: after any sequence of sampled frames the reference is absent
    exactly when every frame so far was blurry, and exactly when the slide
    count is still zero. *)
Theorem reference_absent_iff (cap : VideoCapture Frame) (dir : string)
    (callback : bool) (ssim_threshold : option Q) fs :
  let env := env_of cap dir callback ssim_threshold in
  let l := run env init fs in
  (reference_slide l = None <->
   Forall (fun x => is_blurry (cvtColor x) = true) fs) /\
  (reference_slide l = None <-> slide_count l = 0).
Proof.
  intros env l. split.
  - split.
    + subst l. generalize (@init Frame Gray) (eq_refl : reference_slide (@init Frame Gray) = None).
      induction fs as [|f fs IH]; intros l0 H0 Hr; [constructor|].
      cbn [run] in Hr.
      destruct (is_blurry (cvtColor f)) eqn:Hb.
      * constructor; [exact Hb|].
        assert (E : step env l0 f = l0).
        { unfold step, sampled_body, report. cbn. rewrite H0, Hb.
          reflexivity. }
        rewrite E in Hr. exact (IH l0 H0 Hr).
      * exfalso. revert Hr. apply reference_kept_run.
        unfold step, sampled_body, report. cbn. rewrite H0, Hb. cbn.
        discriminate.
    + intros HB. subst l.
      rewrite (proj1 (blurry_prefix env init fs eq_refl HB)). reflexivity.
  - destruct (reachable_inv cap dir callback ssim_threshold fs)
      as [_ _ _ _ I5 I6 _].
    fold env in I5, I6. fold l in I5, I6. split.
    + intros Hr. apply I5, Hr.
    + intros Hc. destruct (reference_slide l) eqn:E; [|reflexivity].
      assert (1 <= slide_count l) by (apply I6; discriminate). lia.
Qed.

(** *** Cooldown *)

Lemma cooldown_step env P l f :
  Inv P l -> 0 < cooldown l ->
  step env l f = set_cooldown (cooldown l - 1) l /\
  step_writes env l f = [].
Proof.
  intros [I1 I2 I3 I4 I5 I6 I7] Hc.
  crunch; tests; settle; try lia; split; reflexivity.
Qed.

(** X5: while the cooldown counter is running the sampled frames are not
    looked at: whatever they show, each of them only lowers the counter by
    one, nothing is written and no other variable changes. *)
Theorem cooldown_ignores_frames (cap : VideoCapture Frame) (dir : string)
    (callback : bool) (ssim_threshold : option Q) (pre fs : list Frame) :
  let env := env_of cap dir callback ssim_threshold in
  let l := run env init pre in
  Z.of_nat (List.length fs) <= cooldown l ->
  run env l fs = set_cooldown (cooldown l - Z.of_nat (List.length fs)) l /\
  List.concat (trace env l fs) = [].
Proof.
  intros env l.
  assert (Hl : Inv (fun _ => True) l).
  { apply run_inv; [apply cooldown_frames_of_nonneg | apply init_inv |].
    apply Forall_forall. auto. }
  clearbody l. revert l Hl.
  induction fs as [|f fs IH]; intros l Hl Hlen.
  - cbn. rewrite Z.sub_0_r. destruct l. split; reflexivity.
  - cbn [List.length] in Hlen. rewrite Nat2Z.inj_succ in Hlen.
    destruct (cooldown_step env _ l f Hl ltac:(lia)) as [S W].
    assert (Hl' : Inv (fun _ => True) (step env l f)).
    { apply step_inv; [apply cooldown_frames_of_nonneg | exact Hl | exact I]. }
    cbn [run trace List.concat List.length]. rewrite W.
    rewrite S in Hl' |- *.
    destruct (IH _ Hl') as [R T]; [cbn; lia|].
    rewrite R, T. cbn [cooldown set_cooldown]. split; [|reflexivity].
    unfold set_cooldown. cbn. f_equal. lia.
Qed.

(** *** A scene that does not change *)

Lemma idle_step env l f r :
  reference_slide l = Some r -> candidate_frame l = None ->
  stable_count l = 0 -> cooldown l = 0 ->
  is_blurry (cvtColor f) = true \/
  detect_scene_change (Some r) (cvtColor f) (threshold env) (hist_thresh env)
    = false ->
  step env l f = l /\ step_writes env l f = [].
Proof.
  intros Hr Hc Hs Hd Hf.
  unfold step, step_writes, sampled_body, report. cbn.
  rewrite Hr, Hd. cbn.
  assert (E : set_candidate_frame None (set_stable_count 0 l) = l).
  { destruct l. cbn in *. subst. reflexivity. }
  destruct (is_blurry (cvtColor f)) eqn:Hb; cbn.
  - rewrite E. split; reflexivity.
  - destruct Hf as [Hf|Hf]; [discriminate|].
    unfold detect_scene_change in Hf. rewrite Hf. cbn.
    rewrite E. split; reflexivity.
Qed.

(** X6: a scene that holds still gives exactly one slide. When, after
    blurry frames, a sharp frame [f] is followed only by frames that are
    blurry or show no change against [f], the one image written is [f], as
    slide 1. *)
Theorem static_scene_one_slide (cap : VideoCapture Frame) (dir : string)
    (callback : bool) (ssim_threshold : option Q)
    (pre post : list Frame) (f : Frame) :
  let env := env_of cap dir callback ssim_threshold in
  Forall (fun x => is_blurry (cvtColor x) = true) pre ->
  is_blurry (cvtColor f) = false ->
  Forall (fun x => is_blurry (cvtColor x) = true \/
                   detect_scene_change (Some (cvtColor f)) (cvtColor x)
                     (threshold env) (hist_thresh env) = false) post ->
  List.concat (trace env init (pre ++ f :: post)) = [(1, f)] /\
  slide_count (run env init (pre ++ f :: post)) = 1.
Proof.
  intros env HB Hf HS.
  destruct (blurry_prefix env init pre eq_refl HB) as [E1 E2].
  rewrite trace_app, concat_app, run_app, E1, E2. cbn [trace run app
    List.concat].
  assert (S1 : step env init f
               = set_reference_slide (Some (cvtColor f))
                   (set_slide_count 1 init)
               /\ step_writes env init f = [(1, f)]).
  { unfold step, step_writes, sampled_body, report. cbn.
    rewrite Hf. split; reflexivity. }
  destruct S1 as [S1 S2]. rewrite S1, S2.
  set (l1 := set_reference_slide (Some (cvtColor f)) (set_slide_count 1 init)).
  assert (K : run env l1 post = l1 /\ List.concat (trace env l1 post) = []).
  { induction HS as [|x post Hx HS IH]; [split; reflexivity|].
    destruct (idle_step env l1 x (cvtColor f) eq_refl eq_refl eq_refl eq_refl
                Hx) as [A B].
    cbn [run trace List.concat]. rewrite A, B. exact IH. }
  destruct K as [K1 K2]. rewrite K1, K2. split; reflexivity.
Qed.

(** *** The stability window *)

Lemma window_init env : Window env [] (@init Frame Gray).
Proof. intros g Hg. discriminate. Qed.

Lemma window_step env P seen l f :
  Inv P l -> Window env seen l -> Window env (seen ++ [f]) (step env l f).
Proof.
  intros [I1 I2 I3 I4 I5 I6 I7] HW. unfold Window in *. revert HW.
  crunch; tests; settle; cbn; intros HW g' Hg'; try discriminate;
    try congruence.
  - rewrite (I2 Heqb) in Hg'. discriminate.
  - (* the candidate is extended *)
    destruct (HW _ eq_refl) as (_ & c & older & recent & Hc & Hg & Hs & Hn
                                  & Hm & HF).
    assert (Eg : g' = g0) by congruence. subst g'.
    split; [exact Heqb3|].
    exists c, older, (recent ++ [f]). rewrite Heqo.
    repeat split; try assumption.
    + rewrite Hs, <- app_assoc. reflexivity.
    + rewrite length_app. cbn. lia.
    + apply Hm.
    + apply Hm.
    + apply Forall_app. split; [exact HF|].
      constructor; [|constructor]. repeat split; assumption.
  - (* a new candidate replaces the old one *)
    inversion Hg'; subst g'. split; [exact Heqb3|].
    exists f, seen, []. rewrite Heqo.
    repeat split; try assumption; try reflexivity. constructor.
  - (* a candidate is adopted *)
    inversion Hg'; subst g'. split; [exact Heqb2|].
    exists f, seen, []. rewrite Heqo.
    repeat split; try assumption; try reflexivity. constructor.
Qed.

Lemma window_run env P fs :
  0 <= cooldown_frames env -> Forall P fs ->
  forall seen l, Inv P l -> Window env seen l ->
                 Window env (seen ++ fs) (run env l fs).
Proof.
  intros HC HP. induction HP as [|f fs Pf HP IH]; intros seen l Hl HW.
  - rewrite app_nil_r. exact HW.
  - cbn [run]. replace (seen ++ f :: fs) with ((seen ++ [f]) ++ fs)
      by (rewrite <- app_assoc; reflexivity).
    apply IH; [apply step_inv; assumption | apply window_step with P;
                                             assumption].
Qed.

(** What a commit after the first tells about the frames before it. *)
Lemma window_commit env P seen l f n c :
  Inv P l -> Window env seen l -> reference_slide l <> None ->
  In (n, c) (step_writes env l f) ->
  exists older recent,
    seen ++ [f] = older ++ c :: recent /\
    Z.of_nat (List.length recent) + 1 = Z.max 1 (min_stable_frames env) /\
    moving env (reference_slide l) c /\
    Forall (fun x => moving env (reference_slide l) x /\
                     frames_similar (cvtColor c) (cvtColor x) (threshold env)
                       = true) recent.
Proof.
  intros [I1 I2 I3 I4 I5 I6 I7] HW Hr. unfold Window in *. revert HW Hr.
  crunch; tests; settle; cbn; intros HW Hr Hin; try contradiction;
    try congruence.
  all: destruct Hin as [Hin|[]]; inversion Hin; subst.
  - (* the extended candidate is committed *)
    destruct (HW _ eq_refl) as (Hlt & c0 & older & recent & Hc & Hg & Hs & Hn
                                  & Hm & HF).
    inversion Hc; subst c0. inversion H; subst x.
    exists older, (recent ++ [f]). repeat split.
    + rewrite Hs, <- app_assoc. reflexivity.
    + rewrite length_app. cbn. lia.
    + apply Hm.
    + apply Hm.
    + apply Forall_app. split; [exact HF|].
      constructor; [|constructor]. repeat split; assumption.
  - (* a replacing candidate is committed at once *)
    exists seen, []. repeat split; try assumption; [cbn; lia | constructor].
  - (* an adopted candidate is committed at once *)
    exists seen, []. repeat split; try assumption; [cbn; lia | constructor].
Qed.

Lemma reachable_window (cap : VideoCapture Frame) (dir : string)
    (callback : bool) (ssim_threshold : option Q) fs :
  let env := env_of cap dir callback ssim_threshold in
  Inv (fun _ => True) (run env init fs) /\ Window env fs (run env init fs).
Proof.
  intros env.
  assert (HP : Forall (fun _ : Frame => True) fs)
    by (apply Forall_forall; auto).
  split.
  - apply run_inv; [apply cooldown_frames_of_nonneg | apply init_inv | exact HP].
  - apply (window_run env (fun _ => True) fs (cooldown_frames_of_nonneg _) HP
             [] init (init_inv _) (window_init env)).
Qed.

Lemma later_commit_has_reference env P l f n c :
  Inv P l -> In (n, c) (step_writes env l f) -> n <> 1 ->
  reference_slide l <> None.
Proof.
  intros Hl Hw Hn Hr.
  destruct (step_writes_cases env P l f n c Hl Hw) as (_ & En & _).
  destruct Hl as [_ _ _ _ I5 _ _]. destruct (I5 Hr) as (_ & _ & Z0). lia.
Qed.

Lemma firstn_prefix {A : Type} (pre : list A) (x : A) (post : list A) :
  firstn (List.length pre) (pre ++ x :: post) = pre.
Proof.
  induction pre as [|y pre IH]; [reflexivity|].
  cbn [List.length app]. rewrite firstn_cons, IH. reflexivity.
Qed.

(** X7: a commit after the first needs a full stability window. When
    sampled frame [i] commits the image [c] as slide 2 or later, the frames
    sampled up to [i] end with [c] followed by [max(1, min_stable_frames) - 1]
    frames; [c] and all of these are sharp and changes against the
    reference of the time, and each of those after [c] is similar to [c]. *)
Theorem stability_window (cap : VideoCapture Frame) (dir : string)
    (callback : bool) (ssim_threshold : option Q) fs (i : nat) (n : Z)
    (c : Frame) :
  let env := env_of cap dir callback ssim_threshold in
  let ref := reference_slide (run env init (firstn i fs)) in
  In (n, c) (nth i (trace env init fs) []) ->
  2 <= n ->
  exists older recent,
    firstn (S i) fs = older ++ c :: recent /\
    Z.of_nat (List.length recent) + 1 = Z.max 1 (min_stable_frames env) /\
    moving env ref c /\
    Forall (fun x => moving env ref x /\
                     frames_similar (cvtColor c) (cvtColor x) (threshold env)
                       = true) recent.
Proof.
  intros env ref Hi Hn.
  assert (Li := nth_inhabited _ _ _ Hi). rewrite trace_length in Li.
  destruct (split_at fs i Li) as (pre & f & post & E & Lp). subst fs i.
  subst ref. rewrite firstn_middle, firstn_prefix.
  rewrite trace_nth_middle in Hi.
  destruct (reachable_window cap dir callback ssim_threshold pre)
    as [Hl HW].
  fold env in Hl, HW.
  assert (Hr := later_commit_has_reference env _ _ f n c Hl Hi ltac:(lia)).
  exact (window_commit env _ pre _ f n c Hl HW Hr Hi).
Qed.

Lemma in_trace_nth env fs :
  forall l w, In w (List.concat (trace env l fs)) ->
              exists i, In w (nth i (trace env l fs) []).
Proof.
  induction fs as [|f fs IH]; intros l w Hw; [contradiction|].
  cbn [trace List.concat] in Hw. apply in_app_or in Hw.
  destruct Hw as [Hw|Hw].
  - exists 0%nat. exact Hw.
  - destruct (IH _ w Hw) as (i & Hi). exists (S i). exact Hi.
Qed.

(** X8: frames that keep changing commit nothing. With a stability window
    of at least two frames, if no sampled frame is similar to the one
    sampled just before it, at most one image is ever written (the first
    slide). *)
Theorem flicker_commits_nothing (cap : VideoCapture Frame) (dir : string)
    (callback : bool) (ssim_threshold : option Q) fs :
  let env := env_of cap dir callback ssim_threshold in
  2 <= min_stable_frames env ->
  (forall older x y rest,
     fs = older ++ x :: y :: rest ->
     frames_similar (cvtColor x) (cvtColor y) (threshold env) = false) ->
  (List.length (List.concat (trace env init fs)) <= 1)%nat.
Proof.
  intros env HM Hdiff.
  assert (Only1 : forall i n c,
             In (n, c) (nth i (trace env init fs) []) -> n = 1).
  { intros i n c Hi.
    destruct (Z.eq_dec n 1) as [E1|N1]; [exact E1|]. exfalso.
    assert (Li := nth_inhabited _ _ _ Hi). rewrite trace_length in Li.
    destruct (split_at fs i Li) as (pre & f & post & E & Lp). subst i.
    rewrite E, trace_nth_middle in Hi.
    destruct (reachable_window cap dir callback ssim_threshold pre)
      as [Hl HW].
    fold env in Hl, HW.
    assert (Hr := later_commit_has_reference env _ _ f n c Hl Hi N1).
    destruct (window_commit env _ pre _ f n c Hl HW Hr Hi)
      as (older & recent & Hs & Hlen & _ & HF).
    destruct recent as [|y recent]; [cbn [List.length] in Hlen; lia|].
    apply Forall_inv in HF. destruct HF as [_ Hsim].
    assert (Efs : fs = older ++ c :: y :: (recent ++ post)).
    { rewrite E. change (f :: post) with ([f] ++ post).
      rewrite app_assoc, Hs, <- app_assoc. reflexivity. }
    rewrite (Hdiff _ _ _ _ Efs) in Hsim. discriminate. }
  destruct (trace_numbering env (fun _ => True) fs
              (cooldown_frames_of_nonneg _)
              ltac:(apply Forall_forall; auto) init (init_inv _))
    as [N1 _].
  cbn zeta in N1. cbn [slide_count init] in N1.
  destruct (List.concat (trace env init fs)) as [|w1 [|[n2 c2] ws]] eqn:Ews;
    cbn [List.length]; try lia.
  exfalso.
  assert (Hin : In (n2, c2) (List.concat (trace env init fs)))
    by (rewrite Ews; right; left; reflexivity).
  destruct (in_trace_nth env fs init _ Hin) as (i & Hi).
  assert (E2 := Only1 i n2 c2 Hi).
  cbn in N1. inversion N1. lia.
Qed.

(** *** The progress callback *)

Lemma run_silent_eq env env' :
  silent env = silent env' ->
  forall fs l, run env l fs = run env' l fs /\
               trace env l fs = trace env' l fs.
Proof.
  intros E. induction fs as [|f fs IH]; intros l; [split; reflexivity|].
  cbn [run trace]. unfold step at 1 3, step_writes at 1. rewrite E.
  fold (step env' l f). fold (step_writes env' l f).
  destruct (IH (step env' l f)) as [R T]. rewrite R, T. split; reflexivity.
Qed.

(** X9: the progress callback only observes. For a source that reports a
    frame count other than zero, [extract_slides] returns the same result
    and writes the same images, in the same order, with a callback as
    without. *)
Theorem callback_observes_only (cap : VideoCapture Frame) (dir : string)
    (ssim_threshold : option Q) :
  isOpened cap = true ->
  py_int (CAP_PROP_FRAME_COUNT cap) <> 0 ->
  exists evs evs' r,
    extract_slides cap dir true ssim_threshold = (evs, Return r) /\
    extract_slides cap dir false ssim_threshold = (evs', Return r) /\
    writes_of evs = writes_of evs'.
Proof.
  intros Ho Hc.
  destruct (extract_slides_machine cap dir true ssim_threshold Ho
              ltac:(right; exact Hc)) as (evs & E & W).
  destruct (extract_slides_machine cap dir false ssim_threshold Ho
              ltac:(left; reflexivity)) as (evs' & E' & W').
  destruct (run_silent_eq (env_of cap dir true ssim_threshold)
              (env_of cap dir false ssim_threshold) eq_refl
              (sampled (frames cap)) init) as [R T].
  exists evs, evs'. eexists. rewrite E, E', W, W', R, T.
  repeat split; reflexivity.
Qed.

(** X10: the candidate is coherent in every state the loop reaches. When
    no candidate is held, [stable_count] is 0. When one is held,
    [stable_count] is at least 1 and [candidate_frame_color] is set too:
    it is the colour frame the candidate was converted from, one of the
    frames sampled so far. *)
Theorem candidate_is_coherent (cap : VideoCapture Frame) (dir : string)
    (callback : bool) (ssim_threshold : option Q) (seen : list Frame) :
  let l := run (env_of cap dir callback ssim_threshold) init seen in
  (candidate_frame l = None -> stable_count l = 0) /\
  (forall g, candidate_frame l = Some g ->
     1 <= stable_count l /\
     exists f, candidate_frame_color l = Some f /\ g = cvtColor f /\
               In f seen).
Proof.
  cbn zeta.
  destruct (reachable_inv cap dir callback ssim_threshold seen)
    as [_ _ Hidle Hbusy _ _ Hpair].
  split; [exact Hidle|]. intros g Hg. split.
  - apply Hbusy. congruence.
  - exact (Hpair g Hg).
Qed.

Lemma percents_of_app (xs ys : list (Event Frame)) :
  percents_of (xs ++ ys) = percents_of xs ++ percents_of ys.
Proof.
  induction xs as [|[] xs IH]; cbn; rewrite ?IH; reflexivity.
Qed.

Lemma sampled_body_percents env P l f :
  Inv P l -> progress_callback env = true -> total_frames env <> 0 ->
  List.length (percents_of (fst (sampled_body env l f))) = 1%nat.
Proof.
  intros [I1 I2 I3 I4 I5 I6 I7] Hcb Htot.
  crunch; tests; settle; try congruence; reflexivity.
Qed.

Lemma step_keeps_frame_idx env l f : frame_idx (step env l f) = frame_idx l.
Proof. crunch; reflexivity. Qed.

Lemma while_loop_percents env P fs :
  0 <= cooldown_frames env -> progress_callback env = true ->
  total_frames env <> 0 -> Forall P fs ->
  forall l, Inv P l ->
  List.length (percents_of (fst (while_loop env fs l)))
    = List.length (sampled_from (frame_idx l) fs).
Proof.
  intros HC Hcb Htot HP.
  induction HP as [|f fs Pf HP IH]; intros l Hl; [reflexivity|].
  cbn [while_loop sampled_from]. unfold loop_body.
  cbn [frame_idx set_frame_idx].
  set (l1 := set_frame_idx (frame_idx l + 1) l).
  assert (Hl1 : Inv P l1) by (apply Inv_frame_idx; exact Hl).
  destruct ((frame_idx l + 1) mod FRAME_SKIP =? 0) eqn:E; cbn [negb].
  - destruct (sampled_body_machine env P l1 f Hl1 ltac:(right; exact Htot))
      as (evs1 & E1 & _).
    assert (Pc := sampled_body_percents env P l1 f Hl1 Hcb Htot).
    rewrite E1 in Pc. cbn [fst] in Pc.
    assert (Hl2 : Inv P (step env l1 f)) by (apply step_inv; assumption).
    specialize (IH _ Hl2). rewrite step_keeps_frame_idx in IH.
    unfold bind. rewrite E1.
    destruct (while_loop env fs (step env l1 f)) as [evs2 o2].
    cbn [fst] in IH |- *. rewrite percents_of_app, length_app, Pc, IH.
    reflexivity.
  - rewrite bind_ret_l. exact (IH _ Hl1).
Qed.

(** X11: with a callback and a reported frame count other than zero, the
    callback is called once for each sampled frame, and once more when the
    source is exhausted: that last call is given 100 and the number of
    slides [extract_slides] then returns. *)
Theorem progress_call_count (cap : VideoCapture Frame) (dir : string)
    (ssim_threshold : option Q) :
  isOpened cap = true ->
  py_int (CAP_PROP_FRAME_COUNT cap) <> 0 ->
  exists evs n,
    extract_slides cap dir true ssim_threshold
      = (evs ++ [Progress 100 (Done n)], Return (Success n dir)) /\
    List.length (percents_of evs) = List.length (sampled (frames cap)).
Proof.
  intros Ho Hc. unfold extract_slides. rewrite Ho. cbn [negb].
  set (env := env_of cap dir true ssim_threshold).
  assert (Pw := while_loop_percents env (fun _ => True) (frames cap)
                  (cooldown_frames_of_nonneg _) eq_refl Hc
                  ltac:(apply Forall_forall; auto) init (init_inv _)).
  destruct (while_loop_machine env (fun _ => True) (frames cap)
              (cooldown_frames_of_nonneg _) ltac:(right; exact Hc)
              ltac:(apply Forall_forall; auto) init (init_inv _))
    as (evs & E & _).
  rewrite E in Pw. cbn [fst frame_idx init] in Pw.
  exists (MakeDirs dir :: evs ++ [Release]).
  exists (slide_count (run env init (sampled (frames cap)))).
  split.
  - unfold bind at 1. unfold emit at 1. unfold bind at 1. rewrite E.
    cbn. rewrite <- app_assoc. reflexivity.
  - cbn [percents_of]. rewrite percents_of_app, length_app, Pw.
    cbn [percents_of List.length]. unfold sampled. lia.
Qed.

(** *** Where the images go *)

Lemma write_dirs_app (xs ys : list (Event Frame)) :
  write_dirs (xs ++ ys) = write_dirs xs ++ write_dirs ys.
Proof.
  induction xs as [|[] xs IH]; cbn; rewrite ?IH; reflexivity.
Qed.

Lemma write_dirs_bind {A B : Type} (d : string)
    (m : M (Event Frame) A) (k : A -> M (Event Frame) B) :
  Forall (eq d) (write_dirs (fst m)) ->
  (forall a, Forall (eq d) (write_dirs (fst (k a)))) ->
  Forall (eq d) (write_dirs (fst (bind m k))).
Proof.
  intros Hm Hk. destruct m as [tr [a|e]]; cbn in *; [|exact Hm].
  specialize (Hk a). destruct (k a) as [tr' o]. cbn in *.
  rewrite write_dirs_app. apply Forall_app. split; assumption.
Qed.

Lemma sampled_body_dirs env l f :
  Forall (eq (output_dir env)) (write_dirs (fst (sampled_body env l f))).
Proof.
  crunch; cbn; repeat constructor.
Qed.

Lemma while_loop_dirs env fs :
  forall l, Forall (eq (output_dir env)) (write_dirs (fst (while_loop env fs l))).
Proof.
  induction fs as [|f fs IH]; intros l; [constructor|].
  cbn [while_loop]. apply write_dirs_bind; [|exact IH].
  unfold loop_body.
  destruct (negb _); [constructor | apply sampled_body_dirs].
Qed.

Lemma extract_slides_dirs (cap : VideoCapture Frame) (dir : string)
    (callback : bool) (ssim_threshold : option Q) :
  Forall (eq dir)
    (write_dirs (fst (extract_slides cap dir callback ssim_threshold))).
Proof.
  unfold extract_slides. destruct (isOpened cap); cbn [negb];
    [|constructor].
  set (env := env_of cap dir callback ssim_threshold).
  apply write_dirs_bind; [repeat constructor|]. intros _.
  apply write_dirs_bind; [apply (while_loop_dirs env)|]. intros l.
  destruct callback; cbn; constructor.
Qed.

(** X12: every image is written into the output directory given to
    [extract_slides], and not before that directory has been created:
    whatever way the run ends, if any image was written the first call
    made was [os.makedirs] on it. *)
Theorem writes_into_output_dir (cap : VideoCapture Frame) (dir : string)
    (callback : bool) (ssim_threshold : option Q) :
  let evs := fst (extract_slides cap dir callback ssim_threshold) in
  Forall (eq dir) (write_dirs evs) /\
  (write_dirs evs <> [] -> exists rest, evs = MakeDirs dir :: rest).
Proof.
  cbn zeta. split; [apply extract_slides_dirs|].
  unfold extract_slides.
  destruct (isOpened cap); cbn [negb]; [|cbn; congruence].
  intros _. unfold bind at 1. unfold emit at 1.
  match goal with
  | |- context [let (tr', o) := ?m in _] => destruct m as [tr o]
  end.
  cbn. eexists. reflexivity.
Qed.

(** *** The ways a run can end *)

Lemma extract_slides_cases (cap : VideoCapture Frame) (dir : string)
    (callback : bool) (ssim_threshold : option Q) :
  (isOpened cap = false /\
   extract_slides cap dir callback ssim_threshold
     = ([], Return (Failure "Cannot open video" 0))) \/
  (isOpened cap = true /\
   exists evs,
     extract_slides cap dir callback ssim_threshold
       = (evs, Return (Success (Z.of_nat (List.length (writes_of evs))) dir))
     /\ map fst (writes_of evs) = numbers 1 (List.length (writes_of evs))) \/
  (isOpened cap = true /\ callback = true /\
   py_int (CAP_PROP_FRAME_COUNT cap) = 0 /\
   (2 <= List.length (frames cap))%nat /\
   extract_slides cap dir callback ssim_threshold
     = ([MakeDirs dir], Raise ZeroDivisionError)).
Proof.
  destruct (isOpened cap) eqn:Ho.
  2:{ left. split; [reflexivity|]. unfold extract_slides. rewrite Ho.
      reflexivity. }
  right.
  assert (Good : reportable (env_of cap dir callback ssim_threshold) ->
    exists evs,
     extract_slides cap dir callback ssim_threshold
       = (evs, Return (Success (Z.of_nat (List.length (writes_of evs))) dir))
     /\ map fst (writes_of evs) = numbers 1 (List.length (writes_of evs))).
  { intros Hrep.
    destruct (extract_slides_machine cap dir callback ssim_threshold Ho Hrep)
      as (evs & E & W).
    set (env := env_of cap dir callback ssim_threshold) in *.
    destruct (trace_numbering env (fun _ => True) (sampled (frames cap))
                (cooldown_frames_of_nonneg _)
                ltac:(apply Forall_forall; auto) init (init_inv _))
      as [N1 N2].
    cbn zeta in N1, N2. rewrite <- W in N1, N2.
    cbn [slide_count init] in N1, N2.
    exists evs. rewrite E, N2. split; [reflexivity | exact N1]. }
  destruct callback.
  2:{ left. split; [reflexivity|]. apply Good. left. reflexivity. }
  destruct (Z.eq_dec (py_int (CAP_PROP_FRAME_COUNT cap)) 0) as [Hc|Hc].
  2:{ left. split; [reflexivity|]. apply Good. right. exact Hc. }
  destruct (frames cap) as [|f1 [|f2 rest]] eqn:Hf.
  - left. split; [reflexivity|]. unfold extract_slides. rewrite Ho, Hf.
    exists [MakeDirs dir; Release; Progress 100 (Done 0)].
    split; reflexivity.
  - left. split; [reflexivity|]. unfold extract_slides. rewrite Ho, Hf.
    exists [MakeDirs dir; Release; Progress 100 (Done 0)].
    split; reflexivity.
  - right. repeat split; try assumption; [cbn; lia|].
    exact (zero_frame_count_always_raises cap dir ssim_threshold f1 f2 rest
             Ho Hc Hf).
Qed.

End EngineFacts.

(** ** Further properties of the thresholds *)

Section ThresholdFacts.

Context {Frame Gray : Type} {V : Vision Frame Gray}.



(** X14: with the histogram threshold [extract_slides] derives from a
    similarity threshold between 0 and 1, a histogram distance above 0.35
    is always a scene change, and a frame whose similarity reaches the
    threshold with a histogram distance of at most 0.15 never is. *)
Theorem histogram_verdicts (r cur : Gray) (t : Q) :
  (0 <= t <= 1)%Q ->
  let a := resize (get_slide_region r) in
  let b := resize (get_slide_region cur) in
  ((35 # 100 < histogram_diff a b)%Q ->
   detect_scene_change (Some r) cur t (hist_thresh_of t) = true) /\
  ((t <= ssim a b)%Q -> (histogram_diff a b <= 15 # 100)%Q ->
   detect_scene_change (Some r) cur t (hist_thresh_of t) = false).
Proof.
  intros [H0 H1] a b. unfold detect_scene_change. cbn zeta. fold a b.
  split.
  - intros Hh. apply orb_true_iff. right. apply Qltb_lt.
    unfold hist_thresh_of. lra.
  - intros Hs Hh. apply orb_false_iff. split; apply Qltb_ge; [exact Hs|].
    unfold hist_thresh_of. lra.
Qed.

End ThresholdFacts.

(** ** The slide region of an array *)

Section RegionFacts.

Import Region.

Lemma py_int_percent (h : Z) (p : positive) :
  0 <= h -> py_int (inject_Z h * (Zpos p # 100)) = h * Zpos p / 100.
Proof.
  intros Hh. unfold py_int. cbn. apply Z.quot_div_nonneg; lia.
Qed.

Lemma slice_length {A : Type} (lo hi : Z) (xs : list A) :
  0 <= lo <= hi -> hi <= Z.of_nat (List.length xs) ->
  Z.of_nat (List.length (slice lo hi xs)) = hi - lo.
Proof.
  intros Hlo Hhi. unfold slice. rewrite length_firstn, length_skipn. lia.
Qed.

Lemma slice_nth {A : Type} (lo hi : Z) (xs : list A) (i : nat) (d : A) :
  0 <= lo -> Z.of_nat i < hi - lo ->
  nth i (slice lo hi xs) d = nth (i + Z.to_nat lo) xs d.
Proof.
  intros Hlo Hi. unfold slice.
  rewrite nth_firstn.
  assert (E : (i <? Z.to_nat (hi - lo))%nat = true)
    by (apply Nat.ltb_lt; lia).
  rewrite E, nth_skipn. f_equal. lia.
Qed.

Lemma slice_incl {A : Type} (lo hi : Z) (xs : list A) (x : A) :
  In x (slice lo hi xs) -> In x xs.
Proof.
  unfold slice. intros H.
  rewrite <- (firstn_skipn (Z.to_nat lo) xs). apply in_or_app. right.
  rewrite <- (firstn_skipn (Z.to_nat (hi - lo)) (skipn (Z.to_nat lo) xs)).
  apply in_or_app. left. exact H.
Qed.

Lemma shape_rect (h w : nat) (a : image) :
  rect h w a -> (1 <= h)%nat -> shape a = (Z.of_nat h, Z.of_nat w).
Proof.
  intros [Hh Hw] H1. unfold shape. rewrite Hh.
  destruct a as [|row a]; [cbn in Hh; lia|].
  inversion Hw; subst. reflexivity.
Qed.

Lemma region_bounds (h w : nat) :
  let H := Z.of_nat h in
  let W := Z.of_nat w in
  0 <= H * 5 / 100 <= H * 85 / 100 /\ H * 85 / 100 <= H /\
  0 <= W * 5 / 100 <= W * 95 / 100 /\ W * 95 / 100 <= W.
Proof. cbn zeta. repeat split; Z.div_mod_to_equations; lia. Qed.

Lemma region_unfold (h w : nat) (a : image) :
  rect h w a -> (1 <= h)%nat ->
  get_slide_region a
  = map (slice (Z.of_nat w * 5 / 100) (Z.of_nat w * 95 / 100))
        (slice (Z.of_nat h * 5 / 100) (Z.of_nat h * 85 / 100) a).
Proof.
  intros Hr H1. unfold get_slide_region.
  rewrite (shape_rect h w a Hr H1), !py_int_percent by lia. reflexivity.
Qed.

Lemma region_rect (h w : nat) (a : image) :
  rect h w a ->
  rect (Z.to_nat (Z.of_nat h * 85 / 100 - Z.of_nat h * 5 / 100))
       (Z.to_nat (Z.of_nat w * 95 / 100 - Z.of_nat w * 5 / 100))
       (get_slide_region a).
Proof.
  intros Hr.
  destruct (Nat.eq_dec h 0) as [Z0|NZ].
  - destruct Hr as [Hh Hw]. subst h.
    destruct a; [|discriminate]. cbn. split; [reflexivity | constructor].
  - rewrite (region_unfold h w a Hr ltac:(lia)).
    destruct (region_bounds h w) as (B1 & B2 & B3 & B4). cbn zeta in *.
    destruct Hr as [Hh Hw]. split.
    + rewrite length_map.
      assert (L := slice_length _ _ a B1 ltac:(rewrite Hh; exact B2)). lia.
    + apply Forall_map. apply Forall_forall. intros row Hin.
      apply slice_incl in Hin.
      assert (Lr : List.length row = w)
        by (exact (proj1 (Forall_forall _ _) Hw row Hin)).
      assert (L := slice_length _ _ row B3 ltac:(rewrite Lr; exact B4)).
      lia.
Qed.

(** X15: the slide region of an [h] by [w] array is the array of rows
    [h*5/100] up to [h*85/100] and columns [w*5/100] up to [w*95/100]
    (integer divisions): it has that many rows and columns, and its pixel
    [(i, j)] is the pixel [(i + h*5/100, j + w*5/100)] of the frame. *)
Theorem region_is_subrectangle (h w : nat) (a : image) :
  rect h w a ->
  let H := Z.of_nat h in
  let W := Z.of_nat w in
  let rows := H * 85 / 100 - H * 5 / 100 in
  let cols := W * 95 / 100 - W * 5 / 100 in
  rect (Z.to_nat rows) (Z.to_nat cols) (get_slide_region a) /\
  forall i j,
    Z.of_nat i < rows -> Z.of_nat j < cols ->
    pixel (get_slide_region a) i j
    = pixel a (i + Z.to_nat (H * 5 / 100)) (j + Z.to_nat (W * 5 / 100)).
Proof.
  intros Hr H W rows cols. split; [apply region_rect, Hr|].
  intros i j Hi Hj.
  destruct (region_bounds h w) as (B1 & B2 & B3 & B4). cbn zeta in *.
  fold H in B1, B2. fold W in B3, B4.
  assert (H1 : (1 <= h)%nat) by (subst rows H; lia).
  rewrite (region_unfold h w a Hr H1). fold H W. unfold pixel.
  destruct Hr as [Hh Hw].
  assert (Li : (i < List.length (slice (H * 5 / 100) (H * 85 / 100) a))%nat).
  { assert (L := slice_length _ _ a B1 ltac:(rewrite Hh; exact B2)).
    subst rows. lia. }
  rewrite (nth_indep _ [] (slice (W * 5 / 100) (W * 95 / 100) [])).
  2:{ rewrite length_map. exact Li. }
  rewrite map_nth.
  rewrite (slice_nth _ _ _ j 0 (proj1 B3) Hj).
  rewrite (slice_nth _ _ a i [] (proj1 B1) Hi).
  reflexivity.
Qed.

(** X16: the slide region keeps four fifths of the rows and nine tenths of
    the columns, to within one; it has no row exactly when the frame has
    fewer than two rows, and rows without a pixel exactly when the frame
    has fewer than two columns. *)
Theorem region_size (h w : nat) (a : image) :
  rect h w a ->
  exists rows cols,
    rect rows cols (get_slide_region a) /\
    80 * Z.of_nat h - 100 < 100 * Z.of_nat rows < 80 * Z.of_nat h + 100 /\
    90 * Z.of_nat w - 100 < 100 * Z.of_nat cols < 90 * Z.of_nat w + 100 /\
    (rows = 0%nat <-> (h < 2)%nat) /\
    (cols = 0%nat <-> (w < 2)%nat).
Proof.
  intros Hr. eexists. eexists. split; [apply region_rect, Hr|].
  repeat split; intros; Z.div_mod_to_equations; lia.
Qed.

End RegionFacts.

(** ** The installer's progress bar *)

Section InstallerFacts.

Import Installer.

Lemma py_int_ratio (a b : Z) :
  0 <= a -> 0 < b -> py_int (inject_Z a / inject_Z b) = a / b.
Proof.
  intros Ha Hb. unfold py_int. destruct b as [|b|b]; try lia.
  unfold Qdiv, Qinv, inject_Z. cbn.
  rewrite Z.mul_1_r. apply Z.quot_div_nonneg; lia.
Qed.

Lemma new_width_div (p : Z) : 0 <= p -> new_width p = 320 * p / 100.
Proof.
  intros Hp. unfold new_width, progress_width.
  apply py_int_ratio; lia.
Qed.

(** X17: for a progress between 0 and 100 the bar is given a width between
    0 and 320, the full width exactly at 100, and a larger progress never
    gives a narrower bar. *)
Theorem bar_width_bounds (p q : Z) :
  0 <= p <= q -> q <= 100 ->
  0 <= new_width p <= new_width q /\ new_width q <= 320 /\
  (new_width q = 320 <-> q = 100).
Proof.
  intros Hp Hq. rewrite !new_width_div by lia.
  repeat split; try intros; Z.div_mod_to_equations; lia.
Qed.

Lemma copy_progress_value (i n : Z) :
  0 <= i -> 0 < n ->
  copy_progress i n = Return (20 + 40 * (i + 1) / n).
Proof.
  intros Hi Hn. unfold copy_progress.
  assert (E : (n =? 0) = false) by (apply Z.eqb_neq; lia).
  rewrite E, py_int_ratio by lia. reflexivity.
Qed.

(** X18: while the items are copied the division never fails and the
    progress stays between 20 and 60: for items [i <= j] of [n] the values
    are in that range and ordered like the items, and the last item gives
    exactly 60. *)
Theorem copy_progress_range (i j n : Z) :
  0 <= i <= j -> j < n ->
  exists p q,
    copy_progress i n = Return p /\ copy_progress j n = Return q /\
    20 <= p <= q /\ q <= 60 /\ (j = n - 1 -> q = 60).
Proof.
  intros Hij Hjn.
  exists (20 + 40 * (i + 1) / n), (20 + 40 * (j + 1) / n).
  rewrite !copy_progress_value by lia.
  split; [reflexivity|]. split; [reflexivity|].
  assert (P : 0 <= 40 * (i + 1) / n) by (apply Z.div_pos; lia).
  assert (M : 40 * (i + 1) / n <= 40 * (j + 1) / n)
    by (apply Z.div_le_mono; lia).
  assert (U : 40 * (j + 1) / n <= 40)
    by (apply Z.div_le_upper_bound; nia).
  repeat split; try lia.
  intros ->. replace (40 * (n - 1 + 1)) with (40 * n) by lia.
  rewrite Z.div_mul by lia. reflexivity.
Qed.

Lemma nondecreasing_cons (a : Z) (xs : list Z) :
  (forall b, hd_error xs = Some b -> a <= b) -> nondecreasing xs ->
  nondecreasing (a :: xs).
Proof.
  intros Hh Hx. destruct xs as [|b xs]; [exact I|].
  split; [apply Hh; reflexivity | exact Hx].
Qed.

Lemma copy_reports_values (n : Z) :
  forall left i,
    0 <= i -> (left <> O -> 0 < n) ->
    copy_reports n i left
    = Return (map (fun k => 20 + 40 * (k + 1) / n) (numbers i left)).
Proof.
  induction left as [|left IH]; intros i Hi Hn; [reflexivity|].
  cbn [copy_reports numbers map].
  rewrite copy_progress_value by (try apply Hn; auto with zarith).
  rewrite IH; [reflexivity | lia |].
  intros _. apply Hn. discriminate.
Qed.

Lemma copy_values_ordered (n : Z) :
  0 <= n ->
  forall left i,
    0 <= i -> i + Z.of_nat left = n ->
    let vs := map (fun k => 20 + 40 * (k + 1) / n) (numbers i left)
                ++ [65; 75; 85; 95; 100] in
    nondecreasing vs /\
    Forall (fun v => 10 <= v <= 100) vs /\
    forall b, hd_error vs = Some b -> 20 + 40 * i / n <= b.
Proof.
  intros Hn. induction left as [|left IH]; intros i Hi Hsum; cbn zeta.
  - cbn [numbers map app]. split; [cbn; lia|]. split.
    + repeat constructor; lia.
    + intros b Hb. inversion Hb; subst b.
      assert (i = n) by lia. subst i.
      destruct (Z.eq_dec n 0) as [->|NZ]; [cbn; lia|].
      replace (40 * n) with (40 * n) by lia. rewrite Z.div_mul by lia. lia.
  - assert (Hpos : 0 < n) by lia.
    destruct (IH (i + 1) ltac:(lia) ltac:(lia)) as (N & F & Hh).
    cbn zeta in N, F, Hh. cbn [numbers map app].
    assert (U : 40 * (i + 1) / n <= 40)
      by (apply Z.div_le_upper_bound; nia).
    assert (P : 0 <= 40 * (i + 1) / n) by (apply Z.div_pos; lia).
    split; [|split].
    + apply nondecreasing_cons; [|exact N]. intros b Hb.
      apply Hh. exact Hb.
    + constructor; [lia | exact F].
    + intros b Hb.
      assert (Eb : Some (20 + 40 * (i + 1) / n) = Some b) by exact Hb.
      assert (M : 40 * i / n <= 40 * (i + 1) / n)
        by (apply Z.div_le_mono; lia).
      replace b with (20 + 40 * (i + 1) / n) by congruence. lia.
Qed.

(** X19: the installer's progress never moves backwards. Whatever the
    number of items to copy, the values handed to [update_status] are
    computed without error, start at 10, never decrease, stay between 10
    and 100 and end at 100. *)
Theorem install_progress_ordered (n : nat) :
  exists vs,
    install_reports n = Return (10 :: vs ++ [100]) /\
    nondecreasing (10 :: vs ++ [100]) /\
    Forall (fun v => 10 <= v <= 100) (10 :: vs ++ [100]).
Proof.
  unfold install_reports.
  rewrite (copy_reports_values (Z.of_nat n) n 0) by lia.
  destruct (copy_values_ordered (Z.of_nat n) ltac:(lia) n 0 ltac:(lia)
              ltac:(lia)) as (N & F & Hh).
  cbn zeta in N, F, Hh.
  set (ps := map (fun k => 20 + 40 * (k + 1) / Z.of_nat n) (numbers 0 n))
    in *.
  exists (20 :: ps ++ [65; 75; 85; 95]).
  assert (E : ps ++ [65; 75; 85; 95; 100] = (ps ++ [65; 75; 85; 95]) ++ [100])
    by (rewrite <- app_assoc; reflexivity).
  split; [cbn [app]; rewrite E; reflexivity|].
  cbn [app]. rewrite <- E. split.
  - split; [lia|]. apply nondecreasing_cons; [|exact N].
    intros b Hb. specialize (Hh b Hb).
    replace (40 * 0) with 0 in Hh by lia. rewrite Zdiv_0_l in Hh. lia.
  - constructor; [lia|]. constructor; [lia | exact F].
Qed.

End InstallerFacts.

(** ** The window around the engine *)

Section AppFacts.

Import App.

Lemma truthy_chosen (p : option string) :
  p <> Some ""%string -> truthy p = chosen p.
Proof.
  destruct p as [s|]; [|reflexivity]. intros H. cbn.
  destruct (String.eqb_spec s ""); [congruence | reflexivity].
Qed.

Lemma check_ready_consistent (a : app) :
  video_path a <> Some ""%string -> output_path a <> Some ""%string ->
  video_clear_shown a = chosen (video_path a) ->
  output_clear_shown a = chosen (output_path a) ->
  consistent (check_ready a).
Proof.
  intros Hv Ho Cv Co. unfold check_ready.
  rewrite (truthy_chosen _ Hv), (truthy_chosen _ Ho).
  destruct (chosen (video_path a) && chosen (output_path a)) eqn:E;
    unfold consistent; cbn; rewrite E; repeat split; assumption.
Qed.

Lemma handle_consistent (basename : string -> string) (a : app)
    (act : action) :
  consistent a -> consistent (handle basename a act).
Proof.
  intros (Hv & Ho & Cv & Co & Ce & Cs).
  destruct act as [filename| |folder|]; cbn [handle].
  - unfold select_video. destruct (String.eqb_spec filename ""); cbn [negb].
    + repeat split; assumption.
    + apply check_ready_consistent; cbn; congruence.
  - apply check_ready_consistent; cbn; congruence.
  - unfold select_output. destruct (String.eqb_spec folder ""); cbn [negb].
    + repeat split; assumption.
    + apply check_ready_consistent; cbn; congruence.
  - apply check_ready_consistent; cbn; congruence.
Qed.

(** X20: however videos and output folders are selected and cleared, the
    extract button is enabled, with the status "Ready! Click EXTRACT
    SLIDES", exactly when both a video and an output folder are set; each
    clear button shows exactly while its path is set, and a path that is
    set is never empty. *)
Theorem extract_button_ready (basename : string -> string)
    (acts : list action) :
  let a := after basename acts in
  consistent a /\
  (extract_enabled a = true <->
   exists video output, video_path a = Some video /\
                        output_path a = Some output).
Proof.
  intros a.
  assert (C : consistent a).
  { subst a. unfold after.
    assert (C0 : consistent initial)
      by (repeat split; try reflexivity; discriminate).
    revert C0. generalize initial.
    induction acts as [|act acts IH]; intros a0 C0; [exact C0|].
    cbn [fold_left]. apply IH, handle_consistent, C0. }
  split; [exact C|].
  destruct C as (_ & _ & _ & _ & Ce & _). rewrite Ce.
  destruct (video_path a) as [v|], (output_path a) as [o|]; cbn; split;
    try discriminate.
  - intros _. exists v, o. split; reflexivity.
  - reflexivity.
  - intros (x & y & H1 & H2). discriminate.
  - intros (x & y & H1 & H2). discriminate.
  - intros (x & y & H1 & H2). discriminate.
Qed.

(** *** The texts of the two buttons *)

Lemma string_length_append (s t : string) :
  String.length (s ++ t) = (String.length s + String.length t)%nat.
Proof.
  induction s as [|c s IH]; cbn; [reflexivity | rewrite IH; reflexivity].
Qed.

Lemma string_length_substring (s : string) :
  forall n m,
    String.length (substring n m s) = Nat.min m (String.length s - n).
Proof.
  induction s as [|c s IH]; intros n m.
  - destruct n, m; reflexivity.
  - destruct n as [|n].
    + destruct m as [|m]; [reflexivity|]. cbn. rewrite IH.
      rewrite Nat.sub_0_r. reflexivity.
    + cbn. apply IH.
Qed.

Lemma substring_append_rest (s : string) :
  forall n, (n <= String.length s)%nat ->
            (substring 0 n s ++ substring n (String.length s - n) s)%string
            = s.
Proof.
  induction s as [|c s IH]; intros n Hn.
  - destruct n; [reflexivity | cbn in Hn; lia].
  - destruct n as [|n].
    + cbn. f_equal.
      specialize (IH 0%nat ltac:(lia)). cbn in IH.
      rewrite Nat.sub_0_r in IH.
      destruct (String.length s) eqn:E.
      * destruct s; [reflexivity | discriminate].
      * destruct s as [|d s]; [discriminate|]. cbn in IH |- *. exact IH.
    + cbn in Hn. cbn. f_equal. apply IH. lia.
Qed.

(** X21: the text put on the video button is the base name, or its first
    35 characters followed by three dots when it is longer; the text put on
    the output button is the folder, or three dots followed by its last 30
    characters. Neither text is longer than 38 and 33 characters, and the
    part kept is a prefix of the name and a suffix of the folder. *)
Theorem button_labels (name folder : string) :
  (String.length (video_label name) <= 38)%nat /\
  (String.length (output_label folder) <= 33)%nat /\
  ((String.length name <= 35)%nat -> video_label name = name) /\
  ((String.length folder <= 30)%nat -> output_label folder = folder) /\
  ((35 < String.length name)%nat ->
   exists rest, name = (take 35 name ++ rest)%string /\
                video_label name = (take 35 name ++ "...")%string /\
                String.length (take 35 name) = 35%nat) /\
  ((30 < String.length folder)%nat ->
   exists front, folder = (front ++ last_chars 30 folder)%string /\
                 output_label folder
                 = ("..." ++ last_chars 30 folder)%string /\
                 String.length (last_chars 30 folder) = 30%nat).
Proof.
  unfold video_label, output_label, take, last_chars.
  repeat split.
  - destruct (Nat.ltb_spec 35 (String.length name)) as [L|L]; [|lia].
    rewrite string_length_append, string_length_substring.
    change (String.length "...") with 3%nat. lia.
  - destruct (Nat.ltb_spec 30 (String.length folder)) as [L|L]; [|lia].
    rewrite string_length_append, string_length_substring.
    change (String.length "...") with 3%nat. lia.
  - intros L. destruct (Nat.ltb_spec 35 (String.length name)); [lia|].
    reflexivity.
  - intros L. destruct (Nat.ltb_spec 30 (String.length folder)); [lia|].
    reflexivity.
  - intros L. destruct (Nat.ltb_spec 35 (String.length name)); [|lia].
    exists (substring 35 (String.length name - 35) name). repeat split.
    + symmetry. apply substring_append_rest. lia.
    + rewrite string_length_substring. lia.
  - intros L. destruct (Nat.ltb_spec 30 (String.length folder)); [|lia].
    exists (substring 0 (String.length folder - 30) folder). repeat split.
    + symmetry.
      assert (E := substring_append_rest folder (String.length folder - 30)
                     ltac:(lia)).
      replace (String.length folder - (String.length folder - 30))%nat
        with 30%nat in E by lia.
      exact E.
    + rewrite string_length_substring. lia.
Qed.

(** *** What is shown after an extraction *)

Section Shown.

Context {Frame Gray : Type} {V : Vision Frame Gray}.

Variable video_name_of : string -> string.
Variable join : string -> string -> string.
Variable capture : string -> VideoCapture Frame.

(** X22: a video that cannot be opened is reported like a video without
    slides. [run_extraction] then shows the box "No distinct slides found
    in this video", not an error, and nothing has been created or
    written. *)
Theorem unopenable_shown_as_no_slides (video output : string)
    (percent : Z) :
  isOpened (capture video) = false ->
  run_extraction video_name_of join capture video output percent
  = ([], ShowNoSlides).
Proof.
  intros Ho. unfold run_extraction, extract_slides.
  rewrite Ho. reflexivity.
Qed.

(** X23: a success box tells the truth. When [run_extraction] reports [n]
    slides, [n] is at least 1, the images written are numbered 1 to [n],
    all of them are in [<output>/<video name>-slides], and that is the
    folder opened afterwards. *)
Theorem success_box_is_accurate (video output : string) (percent n : Z)
    (dir : string) (evs : list (Event Frame)) :
  run_extraction video_name_of join capture video output percent
  = (evs, ShowSuccess n dir) ->
  dir = output_dir_of video_name_of join video output /\
  1 <= n /\
  map fst (writes_of evs) = numbers 1 (Z.to_nat n) /\
  Forall (eq dir) (write_dirs evs).
Proof.
  unfold run_extraction.
  set (d := output_dir_of video_name_of join video output).
  set (thr := Some (inject_Z percent / 100)%Q).
  assert (Hd := extract_slides_dirs (capture video) d true thr).
  destruct (extract_slides_cases (capture video) d true thr)
    as [[_ E]|[(_ & evs0 & E & N)|(_ & _ & _ & _ & E)]];
    rewrite E in Hd |- *; cbn [fst] in Hd.
  - cbn. discriminate.
  - cbn [slides_of].
    destruct (0 <? Z.of_nat (List.length (writes_of evs0))) eqn:Hpos;
      [|discriminate].
    intros H. inversion H; subst. apply Z.ltb_lt in Hpos.
    rewrite Nat2Z.id. repeat split; try assumption. lia.
  - discriminate.
Qed.

End Shown.

End AppFacts.

(** ** The further properties at work *)

Section MoreRuns.

Import Synthetic Samples.

Lemma slide_numbering_witness :
  exists evs,
    extract_slides (camera (cut 0 2 20)) "out" true None
      = (evs, Return (Success (Z.of_nat (List.length (writes_of evs))) "out"))
    /\ map fst (writes_of evs) = numbers 1 (List.length (writes_of evs)).
Proof.
  apply (slide_numbering (V := vision) (camera (cut 0 2 20)) "out" true None).
  - reflexivity.
  - right. vm_compute. discriminate.
Defined.

Lemma slide_count_bound_witness :
  exists evs n,
    extract_slides (camera (cut 0 2 20)) "out" true None
      = (evs, Return (Success n "out"))
    /\ 0 <= n <= Z.of_nat (List.length (frames (camera (cut 0 2 20)))) / 2.
Proof.
  apply (slide_count_bound (V := vision) (camera (cut 0 2 20)) "out" true
           None).
  - reflexivity.
  - right. vm_compute. discriminate.
Defined.

Lemma reference_absent_iff_witness :
  reference_slide (run env25 init [blurry 0; blurry 1]) = None /\
  slide_count (run env25 init [blurry 0; blurry 1]) = 0.
Proof.
  destruct (reference_absent_iff (V := vision) (camera []) "out" false None
              [blurry 0; blurry 1]) as [B C].
  assert (R : reference_slide (run env25 init [blurry 0; blurry 1]) = None).
  { apply B. repeat constructor. }
  split; [exact R | apply C, R].
Defined.

Lemma cooldown_ignores_frames_witness :
  let l := run env25 init (sharp 0 :: repeat (sharp 2) 10) in
  cooldown l = 3 /\
  run env25 l [sharp 9; sharp 9; sharp 9] = set_cooldown 0 l /\
  List.concat (trace env25 l [sharp 9; sharp 9; sharp 9]) = [].
Proof.
  cbn zeta. split; [reflexivity|].
  apply (cooldown_ignores_frames (V := vision) (camera []) "out" false None
           (sharp 0 :: repeat (sharp 2) 10) [sharp 9; sharp 9; sharp 9]).
  vm_compute. discriminate.
Defined.

Lemma static_scene_one_slide_witness :
  List.concat
    (trace env25 init ([blurry 0] ++ sharp 0 :: [sharp 0; blurry 3; sharp 1]))
    = [(1, sharp 0)] /\
  slide_count
    (run env25 init ([blurry 0] ++ sharp 0 :: [sharp 0; blurry 3; sharp 1]))
    = 1.
Proof.
  apply (static_scene_one_slide (V := vision) (camera []) "out" false None
           [blurry 0] [sharp 0; blurry 3; sharp 1] (sharp 0)).
  - repeat constructor.
  - reflexivity.
  - constructor; [right; reflexivity|].
    constructor; [left; reflexivity|].
    constructor; [right; reflexivity | constructor].
Defined.

Lemma stability_window_witness :
  exists older recent,
    firstn 11 three_scenes = older ++ sharp 2 :: recent /\
    Z.of_nat (List.length recent) + 1 = Z.max 1 (min_stable_frames env25) /\
    moving env25 (reference_slide (run env25 init (firstn 10 three_scenes)))
      (sharp 2) /\
    Forall (fun x =>
              moving env25
                (reference_slide (run env25 init (firstn 10 three_scenes))) x
              /\ frames_similar (cvtColor (sharp 2)) (cvtColor x)
                   (threshold env25) = true) recent.
Proof.
  apply (stability_window (V := vision) (camera []) "out" false None
           three_scenes 10 2 (sharp 2)).
  - vm_compute. left. reflexivity.
  - lia.
Defined.

Lemma flicker_commits_nothing_witness :
  (List.length
     (List.concat (trace env25 init [sharp 0; sharp 5; sharp 0; sharp 5]))
   <= 1)%nat.
Proof.
  apply (flicker_commits_nothing (V := vision) (camera []) "out" false None
           [sharp 0; sharp 5; sharp 0; sharp 5]).
  - vm_compute. discriminate.
  - intros older x y rest E.
    destruct older as [|a [|b [|c [|d older]]]]; cbn in E; inversion E;
      subst; try reflexivity.
    destruct older; discriminate.
Defined.

Lemma callback_observes_only_witness :
  exists evs evs' r,
    extract_slides (camera (cut 0 2 20)) "out" true None = (evs, Return r) /\
    extract_slides (camera (cut 0 2 20)) "out" false None
      = (evs', Return r) /\
    writes_of evs = writes_of evs'.
Proof.
  apply (callback_observes_only (V := vision) (camera (cut 0 2 20)) "out"
           None).
  - reflexivity.
  - vm_compute. discriminate.
Defined.

Lemma candidate_is_coherent_witness :
  let l := run (env_of (camera [sharp 0; sharp 0; sharp 2; sharp 2]) "out"
                  true None) init [sharp 0; sharp 2] in
  candidate_frame l = Some (cvtColor (sharp 2)) /\
  1 <= stable_count l /\
  exists f, candidate_frame_color l = Some f /\
            cvtColor (sharp 2) = cvtColor f /\ In f [sharp 0; sharp 2].
Proof.
  cbn zeta. split; [vm_compute; reflexivity|].
  apply (candidate_is_coherent (V := vision)
           (camera [sharp 0; sharp 0; sharp 2; sharp 2]) "out" true None
           [sharp 0; sharp 2]).
  vm_compute. reflexivity.
Defined.

Lemma progress_call_count_witness :
  exists evs n,
    extract_slides (camera (cut 0 2 20)) "out" true None
      = (evs ++ [Progress 100 (Done n)], Return (Success n "out")) /\
    List.length (percents_of evs)
      = List.length (sampled (frames (camera (cut 0 2 20)))).
Proof.
  apply (progress_call_count (V := vision) (camera (cut 0 2 20)) "out" None).
  - reflexivity.
  - vm_compute. discriminate.
Defined.

Lemma writes_into_output_dir_witness :
  exists rest,
    fst (extract_slides (camera (cut 0 2 20)) "out" true None)
    = MakeDirs "out" :: rest.
Proof.
  apply (writes_into_output_dir (V := vision) (camera (cut 0 2 20)) "out"
           true None).
  vm_compute. discriminate.
Defined.

Lemma histogram_verdicts_witness :
  detect_scene_change (V := vision) (Some (0, 100)) (0, 100) (85 # 100)
    (hist_thresh_of (85 # 100)) = false.
Proof.
  apply (histogram_verdicts (V := vision) (0, 100) (0, 100) (85 # 100)).
  - split; vm_compute; discriminate.
  - vm_compute. discriminate.
  - vm_compute. discriminate.
Defined.

Lemma grid_rect : Region.rect 20 20 grid.
Proof. split; [reflexivity | repeat constructor]. Qed.

Lemma region_is_subrectangle_witness :
  Region.rect 16 18 (Region.get_slide_region grid) /\
  Region.pixel (Region.get_slide_region grid) 0 0 = 101 /\
  Region.pixel (Region.get_slide_region grid) 15 17 = 1618.
Proof.
  destruct (region_is_subrectangle 20 20 grid grid_rect) as [R Px].
  split; [exact R|]. split.
  - rewrite (Px 0%nat 0%nat); [reflexivity | reflexivity | reflexivity].
  - rewrite (Px 15%nat 17%nat); [reflexivity | reflexivity | reflexivity].
Defined.

Lemma region_size_witness :
  exists rows cols,
    Region.rect rows cols (Region.get_slide_region grid) /\
    80 * Z.of_nat 20 - 100 < 100 * Z.of_nat rows < 80 * Z.of_nat 20 + 100 /\
    90 * Z.of_nat 20 - 100 < 100 * Z.of_nat cols < 90 * Z.of_nat 20 + 100 /\
    (rows = 0%nat <-> (20 < 2)%nat) /\
    (cols = 0%nat <-> (20 < 2)%nat).
Proof.
  exact (region_size 20 20 grid grid_rect).
Defined.

Lemma bar_width_bounds_witness :
  0 <= Installer.new_width 20 <= Installer.new_width 60 /\
  Installer.new_width 60 <= 320 /\
  (Installer.new_width 60 = 320 <-> 60 = 100).
Proof.
  apply (bar_width_bounds 20 60); lia.
Defined.

Lemma copy_progress_range_witness :
  exists p q,
    Installer.copy_progress 0 3 = Return p /\
    Installer.copy_progress 2 3 = Return q /\
    20 <= p <= q /\ q <= 60 /\ (2 = 3 - 1 -> q = 60).
Proof.
  apply (copy_progress_range 0 2 3); lia.
Defined.

Lemma extract_button_ready_witness :
  App.extract_enabled
    (App.after (fun s => s)
       [App.SelectVideo "talk.mp4"; App.SelectOutput "slides";
        App.ClearVideo; App.SelectVideo "talk.mp4"]) = true.
Proof.
  apply (extract_button_ready (fun s => s)
           [App.SelectVideo "talk.mp4"; App.SelectOutput "slides";
            App.ClearVideo; App.SelectVideo "talk.mp4"]).
  exists "talk.mp4"%string, "slides"%string. split; reflexivity.
Defined.

Lemma button_labels_witness :
  App.video_label "a-recording-with-a-rather-long-file-name.mp4"
    = "a-recording-with-a-rather-long-file..."%string /\
  App.output_label "short" = "short"%string.
Proof.
  destruct (button_labels "a-recording-with-a-rather-long-file-name.mp4"
              "short") as (_ & _ & _ & Hs & Hl & _).
  split.
  - destruct Hl as (rest & _ & E & _); [vm_compute; lia|]. exact E.
  - apply Hs. vm_compute. lia.
Defined.

Lemma unopenable_shown_as_no_slides_witness :
  App.run_extraction (fun s => s) slash_join (fun _ => unopened)
    "talk" "slides" 85
  = ([], App.ShowNoSlides).
Proof.
  apply (unopenable_shown_as_no_slides (V := vision)). reflexivity.
Defined.

Lemma success_box_is_accurate_witness :
  let shown := App.run_extraction (V := vision) (fun s => s) slash_join
                 (fun _ => camera (cut 0 2 20)) "talk" "slides" 85 in
  snd shown = App.ShowSuccess 2 "slides/talk-slides" /\
  map fst (writes_of (fst shown)) = [1; 2] /\
  Forall (eq "slides/talk-slides"%string) (write_dirs (fst shown)).
Proof.
  cbn zeta. split; [vm_compute; reflexivity|].
  destruct (success_box_is_accurate (V := vision) (fun s => s) slash_join
              (fun _ => camera (cut 0 2 20)) "talk" "slides" 85 2
              "slides/talk-slides"
              (fst (App.run_extraction (V := vision) (fun s => s) slash_join
                      (fun _ => camera (cut 0 2 20)) "talk" "slides" 85)))
    as (_ & _ & N & D).
  - vm_compute. reflexivity.
  - split; [exact N | exact D].
Defined.

End MoreRuns.
